(** * slack-mcp: the REST facade, the capability client and the MCP mount

    A shallow embedding of [src/auth.ts] (requireApiKey), [src/slack.ts]
    (SlackService), [src/index.ts] (createApp) and [src/mcp.ts]
    (createMcpServer, mountMcp), followed by the properties checked
    against them.

    Conventions of the embedding:
    - JavaScript strings are [string]s (their UTF-8 bytes); an absent
      header, query parameter or object field ([undefined]) is [None];
    - a JavaScript number is [NaN] or an integer ([Int z]); [parseInt]
      yields the exact integer its digits denote;
    - an awaited promise is its settlement, [Resolved] or [Rejected];
    - everything outside the repository (the Slack WebClient, the MCP SDK
      transport, [randomUUID], [isInitializeRequest], [JSON.stringify],
      [String.prototype.toLowerCase]) is an oracle: a record field or a
      member of the class [Runtime];
    - the application runs on Express 5: a handler whose promise rejects,
      and a request that matches no route, are answered by Express itself
      with an error page. *)

From Stdlib Require Import ZArith String Ascii List Bool Lia DecimalString.
From stdpp Require Import base option list gmap strings.
Import ListNotations.

Local Open Scope string_scope.
Local Open Scope Z_scope.

Set Warnings "-register-all".

(** ** JavaScript values *)

Module Js.

Inductive JsNumber : Type :=
| NaN
| Int (z : Z).

Inductive JsValue : Type :=
| JUndefined
| JNull
| JBool (b : bool)
| JNum (n : JsNumber)
| JStr (s : string)
| JArr (items : list JsValue)
| JObj (fields : list (string * JsValue)).

(** ToBoolean. *)
Definition truthy (v : JsValue) : bool :=
  match v with
  | JUndefined | JNull => false
  | JBool b => b
  | JNum NaN => false
  | JNum (Int z) => negb (z =? 0)
  | JStr s => negb (String.eqb s "")
  | JArr _ | JObj _ => true
  end.

(** [a || b] on values. *)
Definition js_or (a b : JsValue) : JsValue := if truthy a then a else b.

(** A [string | undefined] as a value. *)
Definition of_opt (s : option string) : JsValue :=
  match s with
  | Some x => JStr x
  | None => JUndefined
  end.

(** ToBoolean on [string | undefined]: absent and empty are falsy. *)
Definition truthy_str (s : option string) : bool := truthy (of_opt s).

(** [s || d] where [s : string | undefined] and [d] is a string. *)
Definition str_or (s : option string) (d : string) : string :=
  match s with
  | Some x => if String.eqb x "" then d else x
  | None => d
  end.

(** [s || undefined]. *)
Definition str_or_undefined (s : option string) : option string :=
  match s with
  | Some x => if String.eqb x "" then None else Some x
  | None => None
  end.

(** *** parseInt(s, 10) *)

Definition is_white (c : ascii) : bool :=
  match nat_of_ascii c with
  | 9%nat | 10%nat | 11%nat | 12%nat | 13%nat | 32%nat => true
  | _ => false
  end.

Fixpoint skip_white (s : string) : string :=
  match s with
  | String c rest => if is_white c then skip_white rest else s
  | EmptyString => EmptyString
  end.

Definition digit_of (c : ascii) : option Z :=
  let n := Z.of_nat (nat_of_ascii c) in
  if (48 <=? n) && (n <=? 57) then Some (n - 48) else None.

(** The longest prefix of decimal digits, as a number; [None] when the
    prefix is empty. *)
Fixpoint digits (s : string) (seen : bool) (acc : Z) : option Z :=
  match s with
  | String c rest =>
      match digit_of c with
      | Some d => digits rest true (10 * acc + d)
      | None => if seen then Some acc else None
      end
  | EmptyString => if seen then Some acc else None
  end.

Definition parseInt (s : string) : JsNumber :=
  let t := skip_white s in
  let '(sign, u) :=
    match t with
    | String "-"%char rest => (-1, rest)
    | String "+"%char rest => (1, rest)
    | _ => (1, t)
    end in
  match digits u false 0 with
  | Some n => Int (sign * n)
  | None => NaN
  end.

(** *** Strings: ASCII case, includes, property reads

    [String.prototype.toLowerCase] itself is a member of [Runtime]; on a
    string of ASCII characters it is the fold below. *)

Definition lower_char (c : ascii) : ascii :=
  let n := nat_of_ascii c in
  if ((65 <=? n) && (n <=? 90))%nat then ascii_of_nat (n + 32) else c.

(** The letters A to Z put in lower case, every other character kept. *)
Fixpoint fold_ascii (s : string) : string :=
  match s with
  | String c rest => String (lower_char c) (fold_ascii rest)
  | EmptyString => EmptyString
  end.

(** Every character of the string is an ASCII character. *)
Fixpoint is_ascii (s : string) : bool :=
  match s with
  | String c rest => (nat_of_ascii c <? 128)%nat && is_ascii rest
  | EmptyString => true
  end.

Fixpoint startsWith (s needle : string) : bool :=
  match needle, s with
  | EmptyString, _ => true
  | String _ _, EmptyString => false
  | String b needle', String a s' => Ascii.eqb a b && startsWith s' needle'
  end.

(** [s.includes(needle)]: [needle] occurs at some position of [s]. *)
Fixpoint includes (s needle : string) : bool :=
  startsWith s needle ||
  match s with
  | String _ rest => includes rest needle
  | EmptyString => false
  end.

(** [v.key] for a value that is not [undefined] or [null]: [undefined]
    when [v] has no such field. *)
Fixpoint lookup_field (key : string) (fields : list (string * JsValue)) : JsValue :=
  match fields with
  | [] => JUndefined
  | (k, x) :: rest => if String.eqb k key then x else lookup_field key rest
  end.

Definition prop (v : JsValue) (key : string) : JsValue :=
  match v with
  | JObj fields => lookup_field key fields
  | _ => JUndefined
  end.

(** A string where a value is expected is that string as a value. *)
Coercion JStr : string >-> JsValue.

(** An awaited promise. *)
Inductive Settled (A E : Type) : Type :=
| Resolved (a : A)
| Rejected (e : E).
Arguments Resolved {A E} a.
Arguments Rejected {A E} e.

End Js.
Export Js.

(** What the code takes from its runtime and from the MCP SDK as pure
    functions: [JSON.stringify], the SDK's [isInitializeRequest] and
    [String.prototype.toLowerCase]. Of [toLowerCase] the class records what
    the language guarantees on ASCII strings; on other strings (Unicode
    case mappings, with their context rules) it is left open. *)
Class Runtime : Type := {
  JSON_stringify : JsValue -> string;
  isInitializeRequest : JsValue -> bool;
  toLowerCase : string -> string;
  toLowerCase_ascii : forall s, is_ascii s = true -> toLowerCase s = fold_ascii s
}.

(** ** The capability client: src/slack.ts *)

Module Slack.

(** types.ts: [ApiResponse = ApiSuccess | ApiError]. *)
Inductive ApiResponse : Type :=
| ApiSuccess (fields : list (string * JsValue))
| ApiError (error : string) (detail : option string).

Definition ok (r : ApiResponse) : bool :=
  match r with
  | ApiSuccess _ => true
  | ApiError _ _ => false
  end.

(** The response as the JavaScript object it is. *)
Definition to_js (r : ApiResponse) : JsValue :=
  match r with
  | ApiSuccess fields => JObj (("ok", JBool true) :: fields)
  | ApiError error detail =>
      JObj [("ok", JBool false); ("error", JStr error); ("detail", of_opt detail)]
  end.

(** What a rejected WebClient call carries: [err.data.error], [err.message]. *)
Record SlackError : Type := {
  data_error : option string;
  message : option string
}.

Record PostMessageResult : Type := {
  ts : option string;
  posted_channel : option string
}.

Record HistoryResult : Type := {
  messages : JsValue;
  next_cursor : option string
}.

Record SearchResult : Type := {
  matches : JsValue
}.

Record Member : Type := {
  id : option string;
  name : option string;
  real_name : option string
}.

Record UsersListResult : Type := {
  members : option (list Member)
}.

Record OpenResult : Type := {
  opened_id : option string
}.

(** The part of @slack/web-api's WebClient the service calls. *)
Record WebClient : Type := {
  chat_postMessage : JsValue -> JsValue -> Settled PostMessageResult SlackError;
  conversations_history :
    string -> JsNumber -> option string -> Settled HistoryResult SlackError;
  search_messages : string -> JsNumber -> Settled SearchResult SlackError;
  users_list : Settled UsersListResult SlackError;
  conversations_open : string -> Settled OpenResult SlackError
}.

Record SlackService : Type := {
  client : WebClient;
  userClient : option WebClient
}.

(** [new SlackService(botToken, userToken?)]. *)
Definition new_SlackService (new_WebClient : string -> WebClient)
    (botToken : string) (userToken : option string) : SlackService :=
  {| client := new_WebClient botToken;
     userClient :=
       match str_or_undefined userToken with
       | Some t => Some (new_WebClient t)
       | None => None
       end |}.

(** The catch block shared by the five methods. *)
Definition caught (err : SlackError) : ApiResponse :=
  ApiError (str_or (data_error err) "slack_error") (message err).

(** [this.userClient || this.client]. *)
Definition user_or_bot (slack : SlackService) : WebClient :=
  match userClient slack with
  | Some c => c
  | None => client slack
  end.

(** The parameters are typed [string]; at run time they are whatever the
    caller passes. *)
Definition sendMessage (slack : SlackService) (channel text : JsValue) : ApiResponse :=
  match chat_postMessage (client slack) channel text with
  | Resolved result =>
      ApiSuccess [("ts", of_opt (ts result)); ("channel", of_opt (posted_channel result))]
  | Rejected err => caught err
  end.

Definition getChannelHistory (slack : SlackService) (channel : string)
    (limit : option JsNumber) (cursor : option string) : ApiResponse :=
  let limit := default (Int 20) limit in
  match conversations_history (user_or_bot slack) channel limit cursor with
  | Resolved result =>
      ApiSuccess [("messages", js_or (messages result) (JArr []));
                  ("next_cursor", js_or (of_opt (next_cursor result)) JNull)]
  | Rejected err => caught err
  end.

Definition searchMessages (slack : SlackService) (query : string)
    (count : option JsNumber) : ApiResponse :=
  let count := default (Int 20) count in
  match search_messages (user_or_bot slack) query count with
  | Resolved result =>
      ApiSuccess
        [("messages",
          js_or (matches result) (JObj [("matches", JArr []); ("total", JNum (Int 0))]))]
  | Rejected err => caught err
  end.

Section Service.
Context `{Runtime}.

(** [s?.toLowerCase().includes(query.toLowerCase())]: [undefined], hence
    falsy, when [s] is absent. *)
Definition lower_includes (s : option string) (query : string) : bool :=
  match s with
  | Some x => includes (toLowerCase x) (toLowerCase query)
  | None => false
  end.

Definition user_filter (query : string) (u : Member) : bool :=
  lower_includes (real_name u) query || lower_includes (name u) query.

Definition user_object (u : Member) : JsValue :=
  JObj [("id", of_opt (id u)); ("name", of_opt (name u));
        ("real_name", of_opt (real_name u))].

Definition searchUsers (slack : SlackService) (query : string) : ApiResponse :=
  match users_list (client slack) with
  | Resolved result =>
      let users := List.filter (user_filter query) (default [] (members result)) in
      ApiSuccess [("users", JArr (List.map user_object users))]
  | Rejected err => caught err
  end.

Definition openDm (slack : SlackService) (userId : string) : ApiResponse :=
  match conversations_open (client slack) userId with
  | Resolved result => ApiSuccess [("channel", of_opt (opened_id result))]
  | Rejected err => caught err
  end.

(** *** Calls on the service, and a log of them

    A handler's run is the list of service calls it made, in order, and its
    result. *)

Inductive SlackCall : Type :=
| SendMessage (channel text : JsValue)
| GetChannelHistory (channel : string) (limit : option JsNumber) (cursor : option string)
| SearchMessages (query : string) (count : option JsNumber)
| SearchUsers (query : string)
| OpenDm (userId : string).

Definition perform (slack : SlackService) (c : SlackCall) : ApiResponse :=
  match c with
  | SendMessage channel text => sendMessage slack channel text
  | GetChannelHistory channel limit cursor => getChannelHistory slack channel limit cursor
  | SearchMessages query count => searchMessages slack query count
  | SearchUsers query => searchUsers slack query
  | OpenDm userId => openDm slack userId
  end.

Definition Logged (A : Type) : Type := (list SlackCall * A)%type.

Definition ret {A : Type} (a : A) : Logged A := ([], a).

Definition bind {A B : Type} (m : Logged A) (k : A -> Logged B) : Logged B :=
  let '(l1, a) := m in
  let '(l2, b) := k a in
  ((l1 ++ l2)%list, b).

(** [await slack.method(args)]. *)
Definition await (slack : SlackService) (c : SlackCall) : Logged ApiResponse :=
  ([c], perform slack c).

End Service.

Definition calls {A : Type} (m : Logged A) : list SlackCall := fst m.
Definition result {A : Type} (m : Logged A) : A := snd m.

End Slack.

Notation "'let*' x ':=' m 'in' k" := (Slack.bind m (fun x => k))
  (at level 10, x name, m at level 100, k at level 200).

(** ** Express: what a handler sees and what it answers *)

Module Express.

Record Headers : Type := {
  x_api_key : option string;
  mcp_session_id : option string
}.

(** What is sent back: [res.status(s).json(body)], [res.status(s).send(text)],
    or, when the application writes nothing, the page Express writes by
    itself (404 for a request that matches no route, 500 for a handler that
    threw). *)
Inductive Response : Type :=
| Json (status : Z) (body : JsValue)
| Send (status : Z) (text : string)
| Page (status : Z).

Definition status_of (r : Response) : Z :=
  match r with
  | Json s _ => s
  | Send s _ => s
  | Page s => s
  end.

End Express.

(** ** src/auth.ts *)

Module Auth.
Import Express Slack.

Definition unauthorized_body : JsValue :=
  JObj [("ok", JBool false); ("error", JStr "unauthorized");
        ("detail", JStr "Missing or invalid API key")].

(** [provided === apiKey], for [provided : string | undefined]. *)
Definition strict_eq (provided : option string) (apiKey : string) : bool :=
  match provided with
  | Some p => String.eqb p apiKey
  | None => false
  end.

(** The middleware: [next] is the rest of the chain. *)
Definition requireApiKey (apiKey : string) (headers : Headers)
    (next : Logged Response) : Logged Response :=
  let provided := x_api_key headers in
  if strict_eq provided apiKey then next
  else ret (Json 401 unauthorized_body).

End Auth.

(** ** src/index.ts *)

Module Rest.
Import Express Slack Auth.

(** types.ts: the body [SendMessageRequest] declares. *)
Record SendMessageBody : Type := {
  channel : option string;
  text : option string
}.

(** The declared body as the object it is. *)
Definition as_body (b : SendMessageBody) : JsValue :=
  JObj [("channel", of_opt (channel b)); ("text", of_opt (text b))].

Record HistoryQuery : Type := {
  limit : option string;
  cursor : option string
}.

Record SearchQuery : Type := {
  query : option string;
  count : option string
}.

Record HistoryParams : Type := {
  channelId : string
}.

(** The route a request matches, with the parts of the request its handler
    reads. [req.body] is what [express.json()] left there: the parsed JSON
    value, or [undefined] when it parsed nothing. [Unrouted] is a request
    that matches none of the four routes, under the [/api] prefix or not. *)
Inductive Route : Type :=
| GET_health
| POST_api_messages_send (body : JsValue)
| GET_api_channels_history (params : HistoryParams) (q : HistoryQuery)
| GET_api_search (q : SearchQuery)
| Unrouted (api : bool).

(** A request as the application receives it past [express.json()]. *)
Record Request : Type := {
  headers : Headers;
  route : Route
}.

(** Whether the request lies under the [/api] prefix. *)
Definition under_api (r : Route) : bool :=
  match r with
  | GET_health => false
  | Unrouted api => api
  | _ => true
  end.

Definition bad_request (detail : string) : JsValue :=
  JObj [("ok", JBool false); ("error", JStr "bad_request"); ("detail", JStr detail)].

(** [res.status(result.ok ? 200 : 500).json(result)]. *)
Definition respond (result : ApiResponse) : Response :=
  Json (if ok result then 200 else 500) (to_js result).

Definition health : Logged Response :=
  ret (Json 200 (JObj [("ok", JBool true); ("status", JStr "healthy")])).

Section Routes.
Context `{Runtime}.
Variable slack : SlackService.

(** [const { channel, text } = req.body] throws a TypeError when the body
    is [undefined] or [null]: the handler's promise rejects and Express
    answers 500. From any other value the two fields are read, [undefined]
    when absent. *)
Definition messages_send (body : JsValue) : Logged Response :=
  match body with
  | JUndefined | JNull => ret (Page 500)
  | _ =>
      let channel := prop body "channel" in
      let text := prop body "text" in
      if negb (truthy channel) || negb (truthy text) then
        ret (Json 400 (bad_request "channel and text are required"))
      else
        let* result := await slack (SendMessage channel text) in
        ret (respond result)
  end.

Definition channel_history (params : HistoryParams) (q : HistoryQuery)
  : Logged Response :=
  let limit := parseInt (str_or (limit q) "20") in
  let cursor := str_or_undefined (cursor q) in
  let* result := await slack (GetChannelHistory (channelId params) (Some limit) cursor) in
  ret (respond result).

Definition search (q : SearchQuery) : Logged Response :=
  match str_or_undefined (query q) with
  | None => ret (Json 400 (bad_request "query parameter is required"))
  | Some query =>
      let* result :=
        await slack (SearchMessages query (Some (parseInt (str_or (count q) "20")))) in
      ret (respond result)
  end.

Definition handler (r : Route) : Logged Response :=
  match r with
  | GET_health => health
  | POST_api_messages_send body => messages_send body
  | GET_api_channels_history params q => channel_history params q
  | GET_api_search q => search q
  | Unrouted _ => ret (Page 404)
  end.

(** The application: [app.use("/api", requireApiKey(apiKey))] in front of
    everything under [/api], then the routes. *)
Definition app (apiKey : string) (req : Request) : Logged Response :=
  if under_api (route req)
  then requireApiKey apiKey (headers req) (handler (route req))
  else handler (route req).

End Routes.

Record Env : Type := {
  SLACK_BOT_TOKEN : option string;
  API_KEY : option string
}.

(** [createApp()]: [None] when it throws for a missing variable. *)
Definition createApp `{Runtime} (new_WebClient : string -> WebClient) (env : Env)
  : option (Request -> Logged Response) :=
  match str_or_undefined (SLACK_BOT_TOKEN env), str_or_undefined (API_KEY env) with
  | Some slackToken, Some apiKey =>
      Some (app (new_SlackService new_WebClient slackToken None) apiKey)
  | _, _ => None
  end.

End Rest.

(** A declared body where a body is expected is the object it is. *)
Coercion Rest.as_body : Rest.SendMessageBody >-> JsValue.

(** ** src/mcp.ts *)

Module Mcp.
Import Express Slack.

(** *** createMcpServer: the five tools *)

Inductive Content : Type :=
| TextContent (text : string).

Record CallToolResult : Type := {
  content : list Content;
  isError : bool
}.

(** [{ content: [{ type: "text", text }] }]. *)
Definition text_result (text : string) : CallToolResult :=
  {| content := [TextContent text]; isError := false |}.

(** [args.key], [None] when [args] has no such own field. *)
Fixpoint assoc (key : string) (fields : list (string * JsValue)) : option JsValue :=
  match fields with
  | [] => None
  | (k, v) :: rest => if String.eqb k key then Some v else assoc key rest
  end.

Definition field (key : string) (args : JsValue) : option JsValue :=
  match args with
  | JObj fields => assoc key fields
  | _ => None
  end.

(** [z.string()]: [None] when the value does not parse. *)
Definition z_string (v : option JsValue) : option string :=
  match v with
  | Some (JStr s) => Some s
  | _ => None
  end.

(** [z.number().optional().default(d)]. *)
Definition z_number_optional_default (d : Z) (v : option JsValue) : option JsNumber :=
  match v with
  | None | Some JUndefined => Some (Int d)
  | Some (JNum (Int z)) => Some (Int z)
  | _ => None
  end.

Section Tools.
Context `{Runtime}.
Variable slack : SlackService.

(** The reply every tool builds from the service's result. *)
Definition reply (result : ApiResponse) : CallToolResult :=
  text_result (JSON_stringify (to_js result)).

Definition tool_send_message (args : JsValue) : option (Logged CallToolResult) :=
  match z_string (field "channel" args), z_string (field "text" args) with
  | Some channel, Some text =>
      Some (let* result := await slack (SendMessage channel text) in ret (reply result))
  | _, _ => None
  end.

Definition tool_read_dm_history (args : JsValue) : option (Logged CallToolResult) :=
  match z_string (field "channel_id" args),
        z_number_optional_default 20 (field "limit" args) with
  | Some channel_id, Some limit =>
      Some (let* result := await slack (GetChannelHistory channel_id (Some limit) None) in
            ret (reply result))
  | _, _ => None
  end.

Definition tool_search_messages (args : JsValue) : option (Logged CallToolResult) :=
  match z_string (field "query" args),
        z_number_optional_default 20 (field "count" args) with
  | Some query, Some count =>
      Some (let* result := await slack (SearchMessages query (Some count)) in
            ret (reply result))
  | _, _ => None
  end.

Definition tool_find_user (args : JsValue) : option (Logged CallToolResult) :=
  match z_string (field "query" args) with
  | Some query =>
      Some (let* result := await slack (SearchUsers query) in ret (reply result))
  | None => None
  end.

Definition tool_open_dm (args : JsValue) : option (Logged CallToolResult) :=
  match z_string (field "user_id" args) with
  | Some user_id =>
      Some (let* result := await slack (OpenDm user_id) in ret (reply result))
  | None => None
  end.

(** The server: its tools by name, in registration order. Each entry
    validates the arguments against the tool's shape ([None]: they do not
    parse) and runs the handler. *)
Definition McpServer : Type :=
  list (string * (JsValue -> option (Logged CallToolResult))).

Definition createMcpServer : McpServer :=
  [("send_message", tool_send_message);
   ("read_dm_history", tool_read_dm_history);
   ("search_messages", tool_search_messages);
   ("find_user", tool_find_user);
   ("open_dm", tool_open_dm)].

Inductive ToolOutcome : Type :=
| UnknownTool
| InvalidParams
| ToolReply (r : CallToolResult).

Fixpoint find_tool (server : McpServer) (name : string)
  : option (JsValue -> option (Logged CallToolResult)) :=
  match server with
  | [] => None
  | (n, tool) :: rest => if String.eqb n name then Some tool else find_tool rest name
  end.

(** A [tools/call] envelope reaching the server. *)
Definition call_tool (server : McpServer) (name : string) (args : JsValue)
  : Logged ToolOutcome :=
  match find_tool server name with
  | None => ret UnknownTool
  | Some tool =>
      match tool args with
      | None => ret InvalidParams
      | Some run => let* r := run in ret (ToolReply r)
      end
  end.

End Tools.

(** *** mountMcp: the session registry and the three verbs *)

(** A transport object. [instance] is its identity as an object (the n-th
    transport constructed); [sessionId] is the [newSessionId] captured by
    its [sessionIdGenerator] and by its [onclose] callback. *)
Record Transport : Type := {
  instance : nat;
  sessionId : string
}.

(** The module-level [transports] map, and how many transports have been
    constructed so far. *)
Record Store : Type := {
  transports : gmap string Transport;
  constructed : nat
}.

Definition initial : Store := {| transports := ∅; constructed := 0 |}.

Record Request : Type := {
  headers : Headers;
  body : JsValue
}.

(** How [transport.handleRequest] ends. *)
Inductive Completion : Type :=
| Returns
| Throws (headersSent : bool).

(** What the transport does with a request handed to it: the tool calls its
    server dispatches, and how the call ends. *)
Record Handled : Type := {
  dispatched : list (string * JsValue);
  completion : Completion
}.

(** The SDK and [node:crypto] during one request. A transport closes
    itself, running its [onclose], only while it handles a DELETE (the SDK's
    [handleDeleteRequest] awaits [this.close()] once it has accepted the
    session); [closes_on_delete] tells whether it does. Closings that come
    from elsewhere are [Closes] events of a run. *)
Record Sdk : Type := {
  randomUUID : string;
  handleRequest : Transport -> Handled;
  closes_on_delete : Transport -> bool
}.

(** What became of the response: the handler wrote it; it was left to the
    transport, which answered or had begun to when it threw; or the
    handler's promise rejected with nothing written by the handler. *)
Inductive Answer : Type :=
| Answered (r : Response)
| ByTransport (t : Transport)
| Unhandled.

Record Outcome : Type := {
  answer : Answer;
  forwarded : option Transport;
  slack_calls : list SlackCall
}.

Definition error_envelope (code : Z) (message : string) : JsValue :=
  JObj [("jsonrpc", JStr "2.0");
        ("error", JObj [("code", JNum (Int code)); ("message", JStr message)]);
        ("id", JNull)].

Definition unauthorized : Response :=
  Json 401 (error_envelope (-32000) "Unauthorized: invalid or missing API key").

Definition bad_request : Response :=
  Json 400 (error_envelope (-32000)
              "Bad request: missing session ID or not an init request").

Definition internal_error : Response :=
  Json 500 (error_envelope (-32603) "Internal server error").

Definition invalid_session : Response := Send 400 "Invalid or missing session ID".

(** A handler that answers by itself. *)
Definition direct (r : Response) : Outcome :=
  {| answer := Answered r; forwarded := None; slack_calls := [] |}.

(** [checkAuth]: [true] lets the handler go on, [false] comes with
    [unauthorized] already sent. *)
Definition checkAuth (apiKey : string) (req : Request) : bool :=
  Auth.strict_eq (x_api_key (headers req)) apiKey.

(** [sessionId && transports.has(sessionId)], with [transports.get(sessionId)!]. *)
Definition known (st : Store) (sessionId : option string) : option Transport :=
  match str_or_undefined sessionId with
  | Some id => transports st !! id
  | None => None
  end.

(** [transport.onclose = () => transports.delete(newSessionId)]. *)
Definition onclose (t : Transport) (st : Store) : Store :=
  {| transports := delete (sessionId t) (transports st);
     constructed := constructed st |}.

Section Mount.
Context `{Runtime}.
Variable slack : SlackService.
Variable apiKey : string.

(** The service calls made by the server behind a transport while it
    handles a request. *)
Definition engine_calls (h : Handled) : list SlackCall :=
  List.concat
    (List.map (fun '(name, args) => calls (call_tool (createMcpServer slack) name args))
       (dispatched h)).

(** [await transport.handleRequest(...)] inside [try]/[catch]. *)
Definition forward_caught (sdk : Sdk) (t : Transport) : Outcome :=
  let h := handleRequest sdk t in
  {| answer :=
       match completion h with
       | Returns => ByTransport t
       | Throws headersSent =>
           if negb headersSent then Answered internal_error else ByTransport t
       end;
     forwarded := Some t;
     slack_calls := engine_calls h |}.

(** [await transport.handleRequest(...)] with nothing around it. *)
Definition forward_bare (sdk : Sdk) (t : Transport) : Outcome :=
  let h := handleRequest sdk t in
  {| answer :=
       match completion h with
       | Returns => ByTransport t
       | Throws _ => Unhandled
       end;
     forwarded := Some t;
     slack_calls := engine_calls h |}.

(** POST /mcp. In the branch that opens a session,
    [createMcpServer(slack)] builds the server and [server.connect] binds it
    to the transport just constructed; on such a transport the SDK's
    [connect] chains the [onclose] set before it and starts the transport,
    so the call returns and the handler goes on to [handleRequest]. The
    server is reached again only through its transport ([engine_calls]). *)
Definition post (st : Store) (req : Request) (sdk : Sdk) : Store * Outcome :=
  if negb (checkAuth apiKey req) then (st, direct unauthorized)
  else
    let sessionId := mcp_session_id (headers req) in
    match known st sessionId with
    | Some transport => (st, forward_caught sdk transport)
    | None =>
        if negb (truthy_str sessionId) && isInitializeRequest (body req) then
          let newSessionId := randomUUID sdk in
          let transport :=
            {| instance := constructed st; sessionId := newSessionId |} in
          let st' :=
            {| transports := <[newSessionId := transport]> (transports st);
               constructed := S (constructed st) |} in
          (st', forward_caught sdk transport)
        else (st, direct bad_request)
    end.

Definition get (st : Store) (req : Request) (sdk : Sdk) : Store * Outcome :=
  if negb (checkAuth apiKey req) then (st, direct unauthorized)
  else
    let sessionId := mcp_session_id (headers req) in
    match known st sessionId with
    | None => (st, direct invalid_session)
    | Some transport => (st, forward_bare sdk transport)
    end.

(** DELETE /mcp. By the time the awaited [handleRequest] is over, a
    transport that closed has run its [onclose] and has removed its entry. *)
Definition delete_ (st : Store) (req : Request) (sdk : Sdk) : Store * Outcome :=
  if negb (checkAuth apiKey req) then (st, direct unauthorized)
  else
    let sessionId := mcp_session_id (headers req) in
    match known st sessionId with
    | None => (st, direct invalid_session)
    | Some transport =>
        (if closes_on_delete sdk transport then onclose transport st else st,
         forward_bare sdk transport)
    end.

Inductive Verb : Type := POST | GET | DELETE.

Definition mountMcp (v : Verb) : Store -> Request -> Sdk -> Store * Outcome :=
  match v with
  | POST => post
  | GET => get
  | DELETE => delete_
  end.

(** *** Runs of the mount

    What happens to the registry over time: requests arrive one after the
    other, and transports close outside the handlers (the server shuts
    down, a connection drops), which calls their [onclose]. *)
Inductive Event : Type :=
| Incoming (v : Verb) (req : Request) (sdk : Sdk)
| Closes (t : Transport).

Definition step (st : Store) (e : Event) : Store * option Outcome :=
  match e with
  | Incoming v req sdk => let '(st', o) := mountMcp v st req sdk in (st', Some o)
  | Closes t => (onclose t st, None)
  end.

Fixpoint run (st : Store) (es : list Event) : Store :=
  match es with
  | [] => st
  | e :: rest => run (fst (step st e)) rest
  end.

End Mount.

(** Every entry holds, under the id its transport generates, a transport
    constructed earlier. *)
Definition well_formed (st : Store) : Prop :=
  forall (id : string) (t : Transport),
    transports st !! id = Some t ->
    sessionId t = id /\ (instance t < constructed st)%nat.

End Mcp.

(** ** Notions of the specification *)

Module Spec.
Import Slack.

(** Two characters are the same letter when case is ignored: they are
    equal, or one is a capital A to Z and the other its small letter. *)
Definition same_letter (a b : ascii) : Prop :=
  a = b
  \/ ((65 <= nat_of_ascii a <= 90)%nat /\ nat_of_ascii b = (nat_of_ascii a + 32)%nat)
  \/ ((65 <= nat_of_ascii b <= 90)%nat /\ nat_of_ascii a = (nat_of_ascii b + 32)%nat).

(** Two strings are equal when case is ignored: same length, same letters. *)
Inductive equal_ci : string -> string -> Prop :=
| equal_ci_empty : equal_ci EmptyString EmptyString
| equal_ci_letter (a b : ascii) (s t : string) :
    same_letter a b -> equal_ci s t -> equal_ci (String a s) (String b t).

(** [needle] occurs in [s] when case is ignored: some stretch of [s] equals
    [needle] up to case. *)
Definition contains_ci (s needle : string) : Prop :=
  exists before mid after : string,
    s = before ++ mid ++ after /\ equal_ci mid needle.

(** [needle], put in lower case, occurs in [s] put in lower case. *)
Definition lower_contains `{Runtime} (s needle : string) : Prop :=
  exists before after : string,
    toLowerCase s = before ++ toLowerCase needle ++ after.

(** The lower-cased [name] or [real_name] of the member contains the
    lower-cased query. *)
Definition lower_matches `{Runtime} (query : string) (u : Member) : Prop :=
  (exists n, name u = Some n /\ lower_contains n query) \/
  (exists r, real_name u = Some r /\ lower_contains r query).

(** The [name] and the [real_name] of the member are ASCII strings. *)
Definition ascii_member (u : Member) : Prop :=
  forall n, name u = Some n \/ real_name u = Some n -> is_ascii n = true.

(** The member's [name] or [real_name] contains the query. *)
Definition member_matches (query : string) (u : Member) : Prop :=
  (exists n, name u = Some n /\ contains_ci n query) \/
  (exists r, real_name u = Some r /\ contains_ci r query).

(** [kept] is [all] restricted to the elements that satisfy [P], in the
    order of [all]. *)
Inductive Selected {A : Type} (P : A -> Prop) : list A -> list A -> Prop :=
| Selected_nil : Selected P [] []
| Selected_keep (x : A) (all kept : list A) :
    P x -> Selected P all kept -> Selected P (x :: all) (x :: kept)
| Selected_drop (x : A) (all kept : list A) :
    ~ P x -> Selected P all kept -> Selected P (x :: all) kept.

(** The tool whose handler makes a given call on the service. *)
Definition tool_of (c : SlackCall) : string :=
  match c with
  | SendMessage _ _ => "send_message"
  | GetChannelHistory _ _ _ => "read_dm_history"
  | SearchMessages _ _ => "search_messages"
  | SearchUsers _ => "find_user"
  | OpenDm _ => "open_dm"
  end.

(** The member has a [name] or a [real_name]. *)
Definition named (u : Member) : bool :=
  match name u, real_name u with
  | None, None => false
  | _, _ => true
  end.

(** The WebClient whose answer decides a call on a service that holds both
    a bot client and a user client. *)
Definition deciding_client (bot user : WebClient) (c : SlackCall) : WebClient :=
  match c with
  | GetChannelHistory _ _ _ | SearchMessages _ _ => user
  | SendMessage _ _ | SearchUsers _ | OpenDm _ => bot
  end.

(** A registry in good order: every entry sits under the id its transport
    generates, two entries never hold the same transport object, and there
    are no more entries than transports constructed. *)
Definition in_order (st : Mcp.Store) : Prop :=
  (forall id t, Mcp.transports st !! id = Some t ->
                Mcp.sessionId t = id /\ (Mcp.instance t < Mcp.constructed st)%nat)
  /\ (forall id1 id2 t1 t2,
         Mcp.transports st !! id1 = Some t1 ->
         Mcp.transports st !! id2 = Some t2 ->
         id1 <> id2 -> Mcp.instance t1 <> Mcp.instance t2)
  /\ (size (Mcp.transports st) <= Mcp.constructed st)%nat.

(** A WebClient that rejects every call with the same error. *)
Definition rejecting_with (err : SlackError) : WebClient :=
  {| chat_postMessage := fun _ _ => Rejected err;
     conversations_history := fun _ _ _ => Rejected err;
     search_messages := fun _ _ => Rejected err;
     users_list := Rejected err;
     conversations_open := fun _ => Rejected err |}.

End Spec.

(** ** Concrete data for the examples *)

Module Sample.
Import Express Slack Mcp.

Definition resolving : WebClient :=
  {| chat_postMessage := fun channel _ =>
       Resolved {| ts := Some "1.0";
                   posted_channel :=
                     match channel with
                     | JStr c => Some c
                     | _ => None
                     end |};
     conversations_history := fun _ _ _ =>
       Resolved {| messages := JArr [JObj [("text", JStr "hi")]]; next_cursor := None |};
     search_messages := fun _ _ =>
       Resolved {| matches := JObj [("matches", JArr []); ("total", JNum (Int 0))] |};
     users_list :=
       Resolved {| members := Some
         [ {| id := Some "U1"; name := Some "ada"; real_name := Some "Ada Lovelace" |};
           {| id := Some "U2"; name := Some "bob"; real_name := None |};
           {| id := Some "U3"; name := Some "grace"; real_name := Some "Grace ADAms" |} ] |};
     conversations_open := fun _ => Resolved {| opened_id := Some "D1" |} |}.

Definition channel_not_found : SlackError :=
  {| data_error := Some "channel_not_found";
     message := Some "An API error occurred: channel_not_found" |}.

Definition rejecting : WebClient :=
  {| chat_postMessage := fun _ _ => Rejected channel_not_found;
     conversations_history := fun _ _ _ => Rejected channel_not_found;
     search_messages := fun _ _ => Rejected channel_not_found;
     users_list := Rejected channel_not_found;
     conversations_open := fun _ => Rejected channel_not_found |}.

Definition slack_up : SlackService := {| client := resolving; userClient := None |}.
Definition slack_down : SlackService := {| client := rejecting; userClient := None |}.

Definition key : string := "test-key".

Definition with_key : Headers := {| x_api_key := Some key; mcp_session_id := None |}.
Definition no_key : Headers := {| x_api_key := None; mcp_session_id := None |}.

(** A serializer for the examples, after [JSON.stringify]: fields holding
    [undefined] are left out, [NaN] and [undefined] items print as null,
    quotes and backslashes in strings are escaped. *)
Definition show_Z (z : Z) : string := NilZero.string_of_int (Z.to_int z).

Definition quote : ascii := ascii_of_nat 34.
Definition backslash : ascii := ascii_of_nat 92.

Fixpoint escape (s : string) : string :=
  match s with
  | EmptyString => EmptyString
  | String c rest =>
      if Ascii.eqb c quote || Ascii.eqb c backslash
      then String backslash (String c (escape rest))
      else String c (escape rest)
  end.

Definition quoted (s : string) : string :=
  String quote (escape s ++ String quote EmptyString).

Fixpoint join (parts : list string) : string :=
  match parts with
  | [] => EmptyString
  | [x] => x
  | x :: rest => x ++ "," ++ join rest
  end.

Fixpoint stringify (v : JsValue) : string :=
  match v with
  | JUndefined | JNull | JNum NaN => "null"
  | JBool true => "true"
  | JBool false => "false"
  | JNum (Int z) => show_Z z
  | JStr s => quoted s
  | JArr items =>
      "[" ++ join ((fix each (l : list JsValue) : list string :=
                      match l with
                      | [] => []
                      | x :: rest => stringify x :: each rest
                      end) items) ++ "]"
  | JObj fields =>
      "{" ++ join ((fix each (l : list (string * JsValue)) : list string :=
                      match l with
                      | [] => []
                      | (_, JUndefined) :: rest => each rest
                      | (k, x) :: rest => (quoted k ++ ":" ++ stringify x) :: each rest
                      end) fields) ++ "}"
  end.

(** The initialize predicate of the examples: the method is "initialize"
    and the parameters name a protocol version, capabilities and the
    client. *)
Definition is_initialize (body : JsValue) : bool :=
  match field "method" body, field "params" body with
  | Some (JStr m), Some params =>
      String.eqb m "initialize"
      && match field "protocolVersion" params, field "capabilities" params,
               field "clientInfo" params with
         | Some (JStr _), Some (JObj _), Some (JObj _) => true
         | _, _, _ => false
         end
  | _, _ => false
  end.

(** A lower-casing for the examples, after the Unicode case conversion
    of [toLowerCase] on the characters it knows: ASCII, the Latin-1 letters
    and the Greek and Cyrillic capitals, a capital sigma becoming the final
    small sigma when a cased letter precedes it and none follows. Other
    characters are kept. *)
Definition cased (cp : nat) : bool :=
  (((65 <=? cp) && (cp <=? 90)) || ((97 <=? cp) && (cp <=? 122))
   || ((192 <=? cp) && (cp <=? 255) && negb (cp =? 215) && negb (cp =? 247))
   || ((913 <=? cp) && (cp <=? 969) && negb (cp =? 930))
   || ((1040 <=? cp) && (cp <=? 1103)))%nat.

Definition lower_cp (cp : nat) : nat :=
  (if (65 <=? cp) && (cp <=? 90) then cp + 32
   else if (192 <=? cp) && (cp <=? 222) && negb (cp =? 215) then cp + 32
   else if (913 <=? cp) && (cp <=? 937) && negb (cp =? 930) then cp + 32
   else if (1040 <=? cp) && (cp <=? 1071) then cp + 32
   else cp)%nat.

(** The first character of a string, from its one or two UTF-8 bytes. *)
Definition head_cp (s : string) : option (nat * string) :=
  match s with
  | String b1 rest =>
      let n1 := nat_of_ascii b1 in
      if (n1 <? 128)%nat then Some (n1, rest)
      else
        match rest with
        | String b2 rest' =>
            let n2 := nat_of_ascii b2 in
            if ((194 <=? n1) && (n1 <=? 223) && (128 <=? n2) && (n2 <=? 191))%nat
            then Some (((n1 - 192) * 64 + (n2 - 128))%nat, rest')
            else None
        | EmptyString => None
        end
  | EmptyString => None
  end.

Definition encode (cp : nat) : string :=
  if (cp <? 128)%nat then String (ascii_of_nat cp) EmptyString
  else String (ascii_of_nat (192 + cp / 64))
         (String (ascii_of_nat (128 + cp mod 64)) EmptyString).

Fixpoint lower_from (fuel : nat) (after_cased : bool) (s : string) : string :=
  match fuel with
  | O => s
  | S fuel' =>
      match head_cp s with
      | Some (cp, rest) =>
          let followed :=
            match head_cp rest with
            | Some (next, _) => cased next
            | None => false
            end in
          let cp' :=
            if (cp =? 931)%nat && after_cased && negb followed then 962%nat
            else lower_cp cp in
          encode cp' ++ lower_from fuel' (cased cp) rest
      | None =>
          match s with
          | String b rest => String b (lower_from fuel' false rest)
          | EmptyString => EmptyString
          end
      end
  end.

Definition lower (s : string) : string :=
  if is_ascii s then fold_ascii s else lower_from (String.length s) false s.

Definition lower_ascii (s : string) : is_ascii s = true -> lower s = fold_ascii s.
Proof. intros E. unfold lower. rewrite E. reflexivity. Qed.

#[export] Instance runtime : Runtime :=
  {| JSON_stringify := stringify;
     isInitializeRequest := is_initialize;
     toLowerCase := lower;
     toLowerCase_ascii := lower_ascii |}.

(** A workspace with one member, whose name is the two Greek capitals
    alpha and sigma; [sigma] is the capital sigma alone. *)
Definition alpha_sigma : string := "ΑΣ".
Definition sigma : string := "Σ".

Definition greek : WebClient :=
  {| chat_postMessage := fun _ _ => Rejected channel_not_found;
     conversations_history := fun _ _ _ => Rejected channel_not_found;
     search_messages := fun _ _ => Rejected channel_not_found;
     users_list :=
       Resolved {| members := Some
         [ {| id := Some "U9"; name := Some alpha_sigma; real_name := None |} ] |};
     conversations_open := fun _ => Rejected channel_not_found |}.

Definition slack_greek : SlackService := {| client := greek; userClient := None |}.

Definition initialize : JsValue :=
  JObj [("jsonrpc", JStr "2.0"); ("id", JNum (Int 1)); ("method", JStr "initialize");
        ("params",
         JObj [("protocolVersion", JStr "2025-03-26");
               ("capabilities", JObj []);
               ("clientInfo",
                JObj [("name", JStr "poke"); ("version", JStr "1.0.0")])])].

Definition tools_list : JsValue :=
  JObj [("jsonrpc", JStr "2.0"); ("id", JNum (Int 2)); ("method", JStr "tools/list")].

(** An SDK whose transports answer, and one whose transports throw before
    anything is sent. *)
Definition sdk_ok (uuid : string) : Sdk :=
  {| randomUUID := uuid;
     handleRequest := fun _ => {| dispatched := []; completion := Returns |};
     closes_on_delete := fun _ => true |}.

Definition sdk_throwing (uuid : string) : Sdk :=
  {| randomUUID := uuid;
     handleRequest := fun _ => {| dispatched := []; completion := Throws false |};
     closes_on_delete := fun _ => false |}.

Definition uuid1 : string := "3f0c1c1e-8a55-4c0e-9d0b-0a6f5d2b7e11".
Definition uuid2 : string := "b7a4d9a2-1c3e-4f6a-8e21-5c9f0d4e3a72".

Definition rpc (session : option string) (body : JsValue) : Mcp.Request :=
  {| Mcp.headers := {| x_api_key := Some key; mcp_session_id := session |};
     Mcp.body := body |}.

(** The registry after one session was opened under [uuid1]. *)
Definition one_session : Store :=
  fst (post slack_up key initial (rpc None initialize) (sdk_ok uuid1)).

End Sample.

(** * Properties *)

(** ** Helper facts *)

(** One case per verb of the RPC endpoint, each with its handler laid open. *)
Ltac by_verb v :=
  destruct v; cbn [Mcp.mountMcp]; unfold Mcp.post, Mcp.get, Mcp.delete_.

Lemma strict_eq_true (provided : option string) (apiKey : string) :
  Auth.strict_eq provided apiKey = true <-> provided = Some apiKey.
Proof.
  destruct provided as [p|]; simpl.
  - rewrite String.eqb_eq. split; congruence.
  - split; discriminate.
Qed.

Lemma strict_eq_false (provided : option string) (apiKey : string) :
  Auth.strict_eq provided apiKey = false <-> provided <> Some apiKey.
Proof.
  rewrite <- strict_eq_true. destruct (Auth.strict_eq provided apiKey); split; congruence.
Qed.

Lemma str_or_undefined_Some (s : option string) (x : string) :
  str_or_undefined s = Some x <-> s = Some x /\ x <> "".
Proof.
  unfold str_or_undefined. destruct s as [y|].
  - destruct (String.eqb_spec y "") as [E|Hne]; split.
    + discriminate.
    + intros [E' Hx]. congruence.
    + intros E. split; congruence.
    + intros [E _]. congruence.
  - split; [discriminate | intros [E _]; discriminate].
Qed.

Lemma str_or_undefined_None (s : option string) :
  str_or_undefined s = None <-> s = None \/ s = Some "".
Proof.
  unfold str_or_undefined. destruct s as [y|].
  - destruct (String.eqb_spec y "") as [E|Hne].
    + subst y. split; auto.
    + split; [discriminate | intros [E|E]; congruence].
  - split; auto.
Qed.

Lemma truthy_str_undefined (s : option string) :
  truthy_str s = match str_or_undefined s with Some _ => true | None => false end.
Proof.
  destruct s as [y|]; simpl; [|reflexivity].
  unfold truthy_str; simpl. destruct (String.eqb y ""); reflexivity.
Qed.

(** ** The auth gate *)

(** C4. A request to a route under [/api], or to any verb of the RPC
    endpoint, whose [x-api-key] header is absent or differs from the
    configured key is answered 401 with the body of its protocol
    (REST: ok false, error unauthorized, detail "Missing or invalid API key";
    RPC: the JSON-RPC envelope with code -32000), no call on the capability
    client is made, nothing is forwarded to a transport and the registry is
    the one before. *)
Theorem unauthorized_is_answered_401 `{Runtime}
    (slack : Slack.SlackService) (apiKey : string) (provided : option string) :
  provided <> Some apiKey ->
  (forall (session : option string) (route : Rest.Route),
      Rest.under_api route = true ->
      Rest.app slack apiKey
        {| Rest.headers :=
             {| Express.x_api_key := provided; Express.mcp_session_id := session |};
           Rest.route := route |}
      = ([], Express.Json 401
               (JObj [("ok", JBool false); ("error", JStr "unauthorized");
                      ("detail", JStr "Missing or invalid API key")])))
  /\
  (forall (v : Mcp.Verb) (st : Mcp.Store) (session : option string) (body : JsValue)
          (sdk : Mcp.Sdk),
      Mcp.mountMcp slack apiKey v st
        {| Mcp.headers :=
             {| Express.x_api_key := provided; Express.mcp_session_id := session |};
           Mcp.body := body |} sdk
      = (st,
         {| Mcp.answer :=
              Mcp.Answered
                (Express.Json 401
                   (JObj [("jsonrpc", JStr "2.0");
                          ("error",
                           JObj [("code", JNum (Int (-32000)));
                                 ("message",
                                  JStr "Unauthorized: invalid or missing API key")]);
                          ("id", JNull)]));
            Mcp.forwarded := None;
            Mcp.slack_calls := [] |})).
Proof.
  intros Hkey. apply strict_eq_false in Hkey. split.
  - intros session route Hapi. unfold Rest.app, Auth.requireApiKey.
    cbn [Rest.route Rest.headers Express.x_api_key]. rewrite Hapi, Hkey. reflexivity.
  - intros v st session body sdk.
    by_verb v; unfold Mcp.checkAuth; cbn [Mcp.headers Express.x_api_key];
      rewrite Hkey; reflexivity.
Qed.

Lemma unauthorized_is_answered_401_witness :
  Rest.app (H := Sample.runtime) Sample.slack_up Sample.key
    {| Rest.headers := Sample.no_key;
       Rest.route := Rest.GET_api_search {| Rest.query := Some "test"; Rest.count := None |} |}
  = ([], Express.Json 401 Auth.unauthorized_body)
  /\ Mcp.mountMcp (H := Sample.runtime) Sample.slack_up Sample.key Mcp.POST Mcp.initial
       {| Mcp.headers := Sample.no_key; Mcp.body := Sample.initialize |}
       (Sample.sdk_ok Sample.uuid1)
     = (Mcp.initial, Mcp.direct Mcp.unauthorized).
Proof.
  destruct (unauthorized_is_answered_401 (H := Sample.runtime)
              Sample.slack_up Sample.key None ltac:(discriminate)) as [R M].
  split.
  - exact (R None (Rest.GET_api_search {| Rest.query := Some "test"; Rest.count := None |})
             eq_refl).
  - exact (M Mcp.POST Mcp.initial None Sample.initialize (Sample.sdk_ok Sample.uuid1)).
Defined.

(** ** The REST handlers *)

Lemma app_authenticated `{Runtime} (slack : Slack.SlackService) (apiKey : string)
    (session : option string) (route : Rest.Route) :
  Rest.app slack apiKey
    {| Rest.headers :=
         {| Express.x_api_key := Some apiKey; Express.mcp_session_id := session |};
       Rest.route := route |}
  = Rest.handler slack route.
Proof.
  unfold Rest.app, Auth.requireApiKey.
  cbn [Rest.route Rest.headers Express.x_api_key].
  assert (Hauth : Auth.strict_eq (Some apiKey) apiKey = true)
    by (apply strict_eq_true; reflexivity).
  rewrite Hauth. destruct (Rest.under_api route); reflexivity.
Qed.

Lemma truthy_of_opt (s : option string) :
  truthy (of_opt s) = false <-> s = None \/ s = Some "".
Proof.
  change (truthy (of_opt s)) with (truthy_str s).
  rewrite truthy_str_undefined, <- str_or_undefined_None.
  destruct (str_or_undefined s); split; congruence.
Qed.

(** What the send handler does with a body that can be destructured. *)
Lemma messages_send_destructured `{Runtime} (slack : Slack.SlackService)
    (body : JsValue) :
  body <> JUndefined -> body <> JNull ->
  Rest.messages_send slack body
  = if negb (truthy (prop body "channel")) || negb (truthy (prop body "text"))
    then ([], Express.Json 400 (Rest.bad_request "channel and text are required"))
    else ([Slack.SendMessage (prop body "channel") (prop body "text")],
          Rest.respond
            (Slack.sendMessage slack (prop body "channel") (prop body "text"))).
Proof.
  intros Hu Hn. unfold Rest.messages_send.
  destruct body; try contradiction;
    destruct (negb _ || negb _); reflexivity.
Qed.

(** The three ways the send handler ends. *)
Lemma messages_send_cases `{Runtime} (slack : Slack.SlackService) (body : JsValue) :
  Rest.messages_send slack body = ([], Express.Page 500)
  \/ Rest.messages_send slack body
     = ([], Express.Json 400 (Rest.bad_request "channel and text are required"))
  \/ exists c, Rest.messages_send slack body
               = ([c], Rest.respond (Slack.perform slack c)).
Proof.
  assert (Hbody : body = JUndefined \/ body = JNull
                  \/ (body <> JUndefined /\ body <> JNull))
    by (destruct body; auto; right; right; split; discriminate).
  destruct Hbody as [-> | [-> | [Hu Hn]]].
  - left. reflexivity.
  - left. reflexivity.
  - right. rewrite (messages_send_destructured slack body Hu Hn).
    destruct (negb _ || negb _); [left; reflexivity|].
    right. eexists (Slack.SendMessage _ _). reflexivity.
Qed.




Lemma find_tool_read_dm_history `{Runtime} (slack : Slack.SlackService) :
  Mcp.find_tool (Mcp.createMcpServer slack) "read_dm_history"
  = Some (Mcp.tool_read_dm_history slack).
Proof. reflexivity. Qed.

Lemma find_tool_search_messages `{Runtime} (slack : Slack.SlackService) :
  Mcp.find_tool (Mcp.createMcpServer slack) "search_messages"
  = Some (Mcp.tool_search_messages slack).
Proof. reflexivity. Qed.

(** C8. With the optional parameter left out, the history operations call
    the capability client with limit 20 and the search operations with
    count 20: the REST history and search routes, the tools
    [read_dm_history] and [search_messages], and the client's own default
    parameters. *)
Theorem omitted_limit_and_count_are_20 `{Runtime}
    (slack : Slack.SlackService) (apiKey : string) (session : option string) :
  (forall (params : Rest.HistoryParams) (cursor : option string),
      Slack.calls
        (Rest.app slack apiKey
           {| Rest.headers :=
                {| Express.x_api_key := Some apiKey; Express.mcp_session_id := session |};
              Rest.route :=
                Rest.GET_api_channels_history params
                  {| Rest.limit := None; Rest.cursor := cursor |} |})
      = [Slack.GetChannelHistory (Rest.channelId params) (Some (Int 20))
           (str_or_undefined cursor)])
  /\
  (forall query : string,
      query <> "" ->
      Slack.calls
        (Rest.app slack apiKey
           {| Rest.headers :=
                {| Express.x_api_key := Some apiKey; Express.mcp_session_id := session |};
              Rest.route :=
                Rest.GET_api_search {| Rest.query := Some query; Rest.count := None |} |})
      = [Slack.SearchMessages query (Some (Int 20))])
  /\
  (forall (args : JsValue) (channel_id : string),
      Mcp.field "channel_id" args = Some (JStr channel_id) ->
      Mcp.field "limit" args = None ->
      Slack.calls (Mcp.call_tool (Mcp.createMcpServer slack) "read_dm_history" args)
      = [Slack.GetChannelHistory channel_id (Some (Int 20)) None])
  /\
  (forall (args : JsValue) (query : string),
      Mcp.field "query" args = Some (JStr query) ->
      Mcp.field "count" args = None ->
      Slack.calls (Mcp.call_tool (Mcp.createMcpServer slack) "search_messages" args)
      = [Slack.SearchMessages query (Some (Int 20))])
  /\
  (forall (channel : string) (cursor : option string),
      Slack.getChannelHistory slack channel None cursor
      = Slack.getChannelHistory slack channel (Some (Int 20)) cursor)
  /\
  (forall query : string,
      Slack.searchMessages slack query None
      = Slack.searchMessages slack query (Some (Int 20))).
Proof.
  repeat split.
  - intros params cursor. rewrite app_authenticated. reflexivity.
  - intros query Hq. rewrite app_authenticated.
    cbn [Rest.handler]. unfold Rest.search. cbn [Rest.query Rest.count].
    assert (E : str_or_undefined (Some query) = Some query)
      by (apply str_or_undefined_Some; auto).
    rewrite E. reflexivity.
  - intros args channel_id Hc Hl. unfold Mcp.call_tool.
    rewrite find_tool_read_dm_history. unfold Mcp.tool_read_dm_history.
    rewrite Hc, Hl. reflexivity.
  - intros args query Hq Hc. unfold Mcp.call_tool.
    rewrite find_tool_search_messages. unfold Mcp.tool_search_messages.
    rewrite Hq, Hc. reflexivity.
Qed.

Lemma omitted_limit_and_count_are_20_witness :
  Slack.calls
    (Rest.app (H := Sample.runtime) Sample.slack_up Sample.key
       {| Rest.headers := Sample.with_key;
          Rest.route :=
            Rest.GET_api_search {| Rest.query := Some "poke"; Rest.count := None |} |})
  = [Slack.SearchMessages "poke" (Some (Int 20))]
  /\ Slack.calls
       (Mcp.call_tool (Mcp.createMcpServer (H := Sample.runtime) Sample.slack_up)
          "read_dm_history" (JObj [("channel_id", JStr "D1")]))
     = [Slack.GetChannelHistory "D1" (Some (Int 20)) None]
  /\ Slack.calls
       (Mcp.call_tool (Mcp.createMcpServer (H := Sample.runtime) Sample.slack_up)
          "search_messages" (JObj [("query", JStr "poke")]))
     = [Slack.SearchMessages "poke" (Some (Int 20))].
Proof.
  destruct (omitted_limit_and_count_are_20 (H := Sample.runtime)
              Sample.slack_up Sample.key None) as (_ & S & T1 & T2 & _).
  split; [|split].
  - apply (S "poke"). discriminate.
  - apply (T1 (JObj [("channel_id", JStr "D1")]) "D1"); reflexivity.
  - apply (T2 (JObj [("query", JStr "poke")]) "poke"); reflexivity.
Defined.

(** C10. An authenticated GET /api/channels/:channelId/history forwards to
    the capability client the limit 20 when the [limit] query parameter is
    absent or the empty string, and [parseInt(limit, 10)] otherwise; so a
    limit that is present but not a number, such as "abc", forwards NaN and
    not the default 20. *)
Theorem history_forwards_parsed_limit `{Runtime}
    (slack : Slack.SlackService) (apiKey : string) (session : option string)
    (params : Rest.HistoryParams) :
  let request (q : Rest.HistoryQuery) :=
    {| Rest.headers :=
         {| Express.x_api_key := Some apiKey; Express.mcp_session_id := session |};
       Rest.route := Rest.GET_api_channels_history params q |} in
  let forwards (q : Rest.HistoryQuery) (limit : JsNumber) :=
    Slack.calls (Rest.app slack apiKey (request q))
    = [Slack.GetChannelHistory (Rest.channelId params) (Some limit)
         (str_or_undefined (Rest.cursor q))] in
  (forall q, Rest.limit q = None -> forwards q (Int 20))
  /\ (forall q, Rest.limit q = Some "" -> forwards q (Int 20))
  /\ (forall q s, Rest.limit q = Some s -> s <> "" -> forwards q (parseInt s))
  /\ (forall q, Rest.limit q = Some "abc" -> forwards q NaN).
Proof.
  intros request forwards. unfold forwards, request.
  repeat split; intros q.
  - intros E. rewrite app_authenticated. cbn [Rest.handler].
    unfold Rest.channel_history. rewrite E. reflexivity.
  - intros E. rewrite app_authenticated. cbn [Rest.handler].
    unfold Rest.channel_history. rewrite E. reflexivity.
  - intros s E Hs. rewrite app_authenticated. cbn [Rest.handler].
    unfold Rest.channel_history. rewrite E. unfold str_or.
    destruct (String.eqb_spec s ""); [contradiction | reflexivity].
  - intros E. rewrite app_authenticated. cbn [Rest.handler].
    unfold Rest.channel_history. rewrite E. reflexivity.
Qed.

Lemma history_forwards_parsed_limit_witness :
  Slack.calls
    (Rest.app (H := Sample.runtime) Sample.slack_up Sample.key
       {| Rest.headers := Sample.with_key;
          Rest.route :=
            Rest.GET_api_channels_history {| Rest.channelId := "C01ABC" |}
              {| Rest.limit := Some "10"; Rest.cursor := None |} |})
  = [Slack.GetChannelHistory "C01ABC" (Some (Int 10)) None]
  /\ Slack.calls
       (Rest.app (H := Sample.runtime) Sample.slack_up Sample.key
          {| Rest.headers := Sample.with_key;
             Rest.route :=
               Rest.GET_api_channels_history {| Rest.channelId := "C01ABC" |}
                 {| Rest.limit := Some "abc"; Rest.cursor := None |} |})
     = [Slack.GetChannelHistory "C01ABC" (Some NaN) None].
Proof.
  destruct (history_forwards_parsed_limit (H := Sample.runtime) Sample.slack_up Sample.key None
              {| Rest.channelId := "C01ABC" |}) as (_ & _ & P & N).
  split.
  - apply (P {| Rest.limit := Some "10"; Rest.cursor := None |} "10");
      [reflexivity | discriminate].
  - apply (N {| Rest.limit := Some "abc"; Rest.cursor := None |}). reflexivity.
Defined.

(** ** Failures of the capability client *)

(** A handler that called the service at all called it once, and answers
    with [respond] of what the call returned. *)
Lemma handler_responds `{Runtime} (slack : Slack.SlackService) (route : Rest.Route)
    (c : Slack.SlackCall) :
  In c (Slack.calls (Rest.handler slack route)) ->
  Slack.result (Rest.handler slack route) = Rest.respond (Slack.perform slack c).
Proof.
  destruct route as [|body|params q|q|api]; cbn [Rest.handler].
  - intros [].
  - destruct (messages_send_cases slack body) as [E|[E|[c' E]]]; rewrite E.
    + intros [].
    + intros [].
    + cbn. intros [<-|[]]. reflexivity.
  - unfold Rest.channel_history. simpl. intros [<-|[]]. reflexivity.
  - unfold Rest.search. destruct (str_or_undefined (Rest.query q)); simpl.
    + intros [<-|[]]. reflexivity.
    + intros [].
  - intros [].
Qed.

Lemma app_responds `{Runtime} (slack : Slack.SlackService) (apiKey : string)
    (req : Rest.Request) (c : Slack.SlackCall) :
  In c (Slack.calls (Rest.app slack apiKey req)) ->
  Slack.result (Rest.app slack apiKey req) = Rest.respond (Slack.perform slack c).
Proof.
  unfold Rest.app, Auth.requireApiKey.
  destruct (Rest.under_api (Rest.route req)).
  - destruct (Auth.strict_eq _ apiKey).
    + apply handler_responds.
    + intros [].
  - apply handler_responds.
Qed.

(** A tool, once its arguments parse, calls the service once and replies
    with [reply] of what the call returned. *)
Lemma tools_reply_with_result `{Runtime} (slack : Slack.SlackService)
    (name : string) (tool : JsValue -> option (Slack.Logged Mcp.CallToolResult))
    (args : JsValue) (run : Slack.Logged Mcp.CallToolResult) :
  Mcp.find_tool (Mcp.createMcpServer slack) name = Some tool ->
  tool args = Some run ->
  exists c, run = ([c], Mcp.reply (Slack.perform slack c)).
Proof.
  unfold Mcp.createMcpServer. cbn [Mcp.find_tool].
  repeat match goal with
         | |- context [if String.eqb ?a name then _ else _] =>
             destruct (String.eqb a name)
         end;
    intros E; try discriminate E; injection E as <-.
  - unfold Mcp.tool_send_message.
    destruct (Mcp.z_string (Mcp.field "channel" args)) as [channel|];
      destruct (Mcp.z_string (Mcp.field "text" args)) as [text|]; try discriminate.
    intros [= <-]. exists (Slack.SendMessage channel text). reflexivity.
  - unfold Mcp.tool_read_dm_history.
    destruct (Mcp.z_string (Mcp.field "channel_id" args)) as [channel_id|];
      destruct (Mcp.z_number_optional_default 20 (Mcp.field "limit" args)) as [limit|];
      try discriminate.
    intros [= <-]. exists (Slack.GetChannelHistory channel_id (Some limit) None).
    reflexivity.
  - unfold Mcp.tool_search_messages.
    destruct (Mcp.z_string (Mcp.field "query" args)) as [query|];
      destruct (Mcp.z_number_optional_default 20 (Mcp.field "count" args)) as [count|];
      try discriminate.
    intros [= <-]. exists (Slack.SearchMessages query (Some count)). reflexivity.
  - unfold Mcp.tool_find_user.
    destruct (Mcp.z_string (Mcp.field "query" args)) as [query|]; try discriminate.
    intros [= <-]. exists (Slack.SearchUsers query). reflexivity.
  - unfold Mcp.tool_open_dm.
    destruct (Mcp.z_string (Mcp.field "user_id" args)) as [user_id|]; try discriminate.
    intros [= <-]. exists (Slack.OpenDm user_id). reflexivity.
Qed.

Lemma call_tool_replies `{Runtime} (slack : Slack.SlackService)
    (name : string) (args : JsValue) (c : Slack.SlackCall) :
  In c (Slack.calls (Mcp.call_tool (Mcp.createMcpServer slack) name args)) ->
  Mcp.call_tool (Mcp.createMcpServer slack) name args
  = ([c], Mcp.ToolReply (Mcp.reply (Slack.perform slack c))).
Proof.
  unfold Mcp.call_tool.
  destruct (Mcp.find_tool (Mcp.createMcpServer slack) name) as [tool|] eqn:Etool;
    [|intros []].
  destruct (tool args) as [run|] eqn:Erun; [|intros []].
  destruct (tools_reply_with_result slack name tool args run Etool Erun) as [c' ->].
  simpl. intros [<-|[]]. reflexivity.
Qed.

(** C3. When a capability-client operation returns a failure, the REST
    handler that made the call answers 500 with that very result as body
    (ok false, the error code and the detail as returned), and the tool that
    made the call returns an ordinary reply, not an error, whose single text
    item is [JSON.stringify] of that same result. *)
Theorem failure_is_surfaced `{Runtime}
    (slack : Slack.SlackService) (apiKey : string) (c : Slack.SlackCall)
    (error : string) (detail : option string) :
  Slack.perform slack c = Slack.ApiError error detail ->
  (forall req : Rest.Request,
      In c (Slack.calls (Rest.app slack apiKey req)) ->
      Slack.result (Rest.app slack apiKey req)
      = Express.Json 500
          (JObj [("ok", JBool false); ("error", JStr error); ("detail", of_opt detail)]))
  /\
  (forall (name : string) (args : JsValue),
      In c (Slack.calls (Mcp.call_tool (Mcp.createMcpServer slack) name args)) ->
      Slack.result (Mcp.call_tool (Mcp.createMcpServer slack) name args)
      = Mcp.ToolReply
          {| Mcp.content :=
               [Mcp.TextContent
                  (JSON_stringify
                     (JObj [("ok", JBool false); ("error", JStr error);
                            ("detail", of_opt detail)]))];
             Mcp.isError := false |}).
Proof.
  intros Hfail. split.
  - intros req Hin. rewrite (app_responds slack apiKey req c Hin), Hfail. reflexivity.
  - intros name args Hin. rewrite (call_tool_replies slack name args c Hin).
    unfold Slack.result, Mcp.reply. simpl. rewrite Hfail. reflexivity.
Qed.

Lemma failure_is_surfaced_witness :
  Slack.result
    (Rest.app (H := Sample.runtime) Sample.slack_down Sample.key
       {| Rest.headers := Sample.with_key;
          Rest.route :=
            Rest.POST_api_messages_send
              {| Rest.channel := Some "C_BAD"; Rest.text := Some "Hello" |} |})
  = Express.Json 500
      (JObj [("ok", JBool false); ("error", JStr "channel_not_found");
             ("detail", JStr "An API error occurred: channel_not_found")])
  /\ Slack.result
       (Mcp.call_tool (Mcp.createMcpServer (H := Sample.runtime) Sample.slack_down)
          "send_message" (JObj [("channel", JStr "C_BAD"); ("text", JStr "Hello")]))
     = Mcp.ToolReply
         (Mcp.text_result
            (Sample.stringify
               (JObj [("ok", JBool false); ("error", JStr "channel_not_found");
                      ("detail", JStr "An API error occurred: channel_not_found")]))).
Proof.
  destruct (failure_is_surfaced (H := Sample.runtime) Sample.slack_down Sample.key
              (Slack.SendMessage "C_BAD" "Hello") "channel_not_found"
              (Some "An API error occurred: channel_not_found") eq_refl) as [R T].
  split.
  - apply R. left. reflexivity.
  - apply (T "send_message" (JObj [("channel", JStr "C_BAD"); ("text", JStr "Hello")])).
    left. reflexivity.
Defined.

(** ** searchUsers *)

Lemma startsWith_app (s needle : string) :
  startsWith s needle = true <-> exists after, s = needle ++ after.
Proof.
  revert s. induction needle as [|b needle IH]; intros s.
  - split; [intros _; exists s; reflexivity | intros _; destruct s; reflexivity].
  - destruct s as [|a s]; simpl.
    + split; [discriminate | intros [after E]; discriminate E].
    + rewrite andb_true_iff, Ascii.eqb_eq, IH. split.
      * intros [-> [after ->]]. exists after. reflexivity.
      * intros [after E]. injection E as -> ->. split; [reflexivity | eauto].
Qed.

Lemma includes_app (s needle : string) :
  includes s needle = true <-> exists before after, s = before ++ needle ++ after.
Proof.
  induction s as [|a s IH].
  - change (includes "" needle) with (startsWith "" needle || false).
    rewrite orb_false_r, startsWith_app. split.
    + intros [after E]. exists "", after. exact E.
    + intros [before [after E]]. destruct before; [|discriminate E].
      exists after. exact E.
  - change (includes (String a s) needle)
      with (startsWith (String a s) needle || includes s needle).
    rewrite orb_true_iff, startsWith_app, IH. split.
    + intros [[after E]|[before [after E]]].
      * exists "", after. exact E.
      * exists (String a before), after. simpl. rewrite E. reflexivity.
    + intros [before [after E]]. destruct before as [|b before]; simpl in E.
      * left. exists after. exact E.
      * right. injection E as -> ->. eauto.
Qed.

Lemma fold_ascii_app (a b : string) :
  fold_ascii (a ++ b) = fold_ascii a ++ fold_ascii b.
Proof. induction a as [|c a IH]; simpl; [reflexivity | rewrite IH; reflexivity]. Qed.

Lemma fold_ascii_split (s x y : string) :
  fold_ascii s = x ++ y ->
  exists a b, s = a ++ b /\ fold_ascii a = x /\ fold_ascii b = y.
Proof.
  revert s. induction x as [|c x IH]; intros s E; simpl in E.
  - exists "", s. auto.
  - destruct s as [|d s]; [discriminate E|]. simpl in E. injection E as Ec E.
    destruct (IH s E) as (a & b & -> & Ha & Hb).
    exists (String d a), b. simpl. rewrite Ec, Ha. auto.
Qed.

(** The code of a character put in lower case. *)
Lemma lower_char_code (c : ascii) :
  nat_of_ascii (lower_char c)
  = (if ((65 <=? nat_of_ascii c) && (nat_of_ascii c <=? 90))%nat
     then nat_of_ascii c + 32 else nat_of_ascii c)%nat.
Proof.
  unfold lower_char.
  destruct ((65 <=? nat_of_ascii c) && (nat_of_ascii c <=? 90))%nat eqn:E;
    [|reflexivity].
  apply andb_true_iff in E. destruct E as [_ E]. apply Nat.leb_le in E.
  apply nat_ascii_embedding. lia.
Qed.

Lemma code_injective (a b : ascii) : nat_of_ascii a = nat_of_ascii b -> a = b.
Proof.
  intros E. rewrite <- (ascii_nat_embedding a), <- (ascii_nat_embedding b), E.
  reflexivity.
Qed.

(** Folding identifies exactly the characters that are the same letter. *)
Lemma lower_char_same_letter (a b : ascii) :
  lower_char a = lower_char b <-> Spec.same_letter a b.
Proof.
  unfold Spec.same_letter. split.
  - intros E. apply (f_equal nat_of_ascii) in E. rewrite !lower_char_code in E.
    destruct (Nat.leb_spec 65 (nat_of_ascii a)), (Nat.leb_spec (nat_of_ascii a) 90),
      (Nat.leb_spec 65 (nat_of_ascii b)), (Nat.leb_spec (nat_of_ascii b) 90);
      cbn [andb] in E;
      first [ left; apply code_injective; lia
            | right; left; lia
            | right; right; lia ].
  - intros Hsame. apply code_injective. rewrite !lower_char_code.
    destruct Hsame as [->|[[Ha Hb]|[Hb Ha]]]; [reflexivity| |].
    + destruct (Nat.leb_spec 65 (nat_of_ascii a)), (Nat.leb_spec (nat_of_ascii a) 90),
        (Nat.leb_spec 65 (nat_of_ascii b)), (Nat.leb_spec (nat_of_ascii b) 90);
        cbn [andb]; lia.
    + destruct (Nat.leb_spec 65 (nat_of_ascii a)), (Nat.leb_spec (nat_of_ascii a) 90),
        (Nat.leb_spec 65 (nat_of_ascii b)), (Nat.leb_spec (nat_of_ascii b) 90);
        cbn [andb]; lia.
Qed.

Lemma fold_ascii_equal_ci (s t : string) :
  fold_ascii s = fold_ascii t <-> Spec.equal_ci s t.
Proof.
  split.
  - revert t. induction s as [|a s IH]; intros [|b t] E; try discriminate E.
    + constructor.
    + cbn [fold_ascii] in E. injection E as Ec E.
      constructor; [apply lower_char_same_letter, Ec | apply IH, E].
  - induction 1 as [|a b s t Hab _ IH]; cbn [fold_ascii]; [reflexivity|].
    apply lower_char_same_letter in Hab. rewrite Hab, IH. reflexivity.
Qed.

(** On folded strings, [includes] is containment up to case. *)
Lemma fold_includes_contains_ci (s query : string) :
  includes (fold_ascii s) (fold_ascii query) = true <-> Spec.contains_ci s query.
Proof.
  rewrite includes_app. unfold Spec.contains_ci. split.
  - intros (before & after & E).
    destruct (fold_ascii_split s _ _ E) as (a & rest & -> & Ha & Hrest).
    destruct (fold_ascii_split rest _ _ Hrest) as (mid & b & -> & Hmid & Hb).
    exists a, mid, b. split; [reflexivity | apply fold_ascii_equal_ci, Hmid].
  - intros (a & mid & b & -> & Hmid). apply fold_ascii_equal_ci in Hmid.
    exists (fold_ascii a), (fold_ascii b).
    rewrite !fold_ascii_app, Hmid. reflexivity.
Qed.

(** The test of the filter, as the code makes it. *)
Lemma user_filter_lower_matches `{Runtime} (query : string) (u : Slack.Member) :
  Slack.user_filter query u = true <-> Spec.lower_matches query u.
Proof.
  unfold Slack.user_filter, Spec.lower_matches, Spec.lower_contains,
    Slack.lower_includes.
  rewrite orb_true_iff. split.
  - intros [Hr|Hn].
    + right. destruct (Slack.real_name u) as [r|]; [|discriminate].
      exists r. split; [reflexivity | apply includes_app, Hr].
    + left. destruct (Slack.name u) as [n|]; [|discriminate].
      exists n. split; [reflexivity | apply includes_app, Hn].
  - intros [(n & -> & Hn)|(r & -> & Hr)].
    + right. apply includes_app, Hn.
    + left. apply includes_app, Hr.
Qed.

(** On ASCII names and an ASCII query the test is containment up to case. *)
Lemma user_filter_matches `{Runtime} (query : string) (u : Slack.Member) :
  is_ascii query = true -> Spec.ascii_member u ->
  Slack.user_filter query u = true <-> Spec.member_matches query u.
Proof.
  intros Hq Hu.
  unfold Slack.user_filter, Spec.member_matches, Slack.lower_includes.
  rewrite orb_true_iff, (toLowerCase_ascii query Hq). split.
  - intros [Hr|Hn].
    + right. destruct (Slack.real_name u) as [r|] eqn:Er; [|discriminate].
      exists r. split; [reflexivity|].
      rewrite (toLowerCase_ascii r) in Hr by (apply Hu; auto).
      apply fold_includes_contains_ci, Hr.
    + left. destruct (Slack.name u) as [n|] eqn:En; [|discriminate].
      exists n. split; [reflexivity|].
      rewrite (toLowerCase_ascii n) in Hn by (apply Hu; auto).
      apply fold_includes_contains_ci, Hn.
  - intros [(n & En & Hn)|(r & Er & Hr)].
    + right. rewrite En, (toLowerCase_ascii n) by (apply Hu; auto).
      apply fold_includes_contains_ci, Hn.
    + left. rewrite Er, (toLowerCase_ascii r) by (apply Hu; auto).
      apply fold_includes_contains_ci, Hr.
Qed.

Lemma filter_Selected {A : Type} (P : A -> Prop) (f : A -> bool) (l : list A) :
  (forall x, In x l -> (f x = true <-> P x)) -> Spec.Selected P l (List.filter f l).
Proof.
  induction l as [|x l IH]; intros Hf; simpl.
  - constructor.
  - assert (Hl : forall y, In y l -> (f y = true <-> P y))
      by (intros y Hy; apply Hf; right; exact Hy).
    destruct (f x) eqn:E.
    + apply Spec.Selected_keep; [apply Hf; [left; reflexivity | exact E] | exact (IH Hl)].
    + apply Spec.Selected_drop; [|exact (IH Hl)].
      intros HP. apply Hf in HP; [congruence | left; reflexivity].
Qed.

Lemma Selected_none {A : Type} (P : A -> Prop) (l kept : list A) :
  Spec.Selected P l kept -> (forall x, In x l -> ~ P x) -> kept = [].
Proof.
  induction 1 as [|x all kept HP _ _|x all kept _ _ IH]; intros Hnone.
  - reflexivity.
  - exfalso. apply (Hnone x); [left; reflexivity | exact HP].
  - apply IH. intros y Hy. apply Hnone. right. exact Hy.
Qed.

(** C9, with the match as the code makes it. When the upstream listing of
    users resolves, [searchUsers] returns ok true with, in upstream order,
    exactly the members whose [name] or [real_name], put in lower case by
    [toLowerCase], contains the query put in lower case, each as the object
    of its [id], [name] and [real_name]. When the query and the names are
    ASCII strings these are exactly the members whose [name] or [real_name]
    contains the query when case is ignored. When no member matches, the
    result is ok true with an empty list of users. The tool [find_user]
    replies with the serialization of that result. *)
Theorem searchUsers_selects_matching_members `{Runtime}
    (slack : Slack.SlackService) (query : string) (listing : Slack.UsersListResult) :
  Slack.users_list (Slack.client slack) = Resolved listing ->
  let upstream := default [] (Slack.members listing) in
  let users (kept : list Slack.Member) :=
    Slack.ApiSuccess
      [("users",
        JArr (List.map
                (fun u => JObj [("id", of_opt (Slack.id u));
                                ("name", of_opt (Slack.name u));
                                ("real_name", of_opt (Slack.real_name u))])
                kept))] in
  (exists kept,
      Spec.Selected (Spec.lower_matches query) upstream kept
      /\ Slack.searchUsers slack query = users kept)
  /\ (is_ascii query = true ->
      (forall u, In u upstream -> Spec.ascii_member u) ->
      exists kept,
        Spec.Selected (Spec.member_matches query) upstream kept
        /\ Slack.searchUsers slack query = users kept)
  /\ ((forall u, In u upstream -> ~ Spec.lower_matches query u) ->
      Slack.searchUsers slack query = Slack.ApiSuccess [("users", JArr [])])
  /\ Mcp.call_tool (Mcp.createMcpServer slack) "find_user" (JObj [("query", JStr query)])
     = ([Slack.SearchUsers query],
        Mcp.ToolReply
          (Mcp.text_result
             (JSON_stringify (Slack.to_js (Slack.searchUsers slack query))))).
Proof.
  intros Hlist upstream users.
  assert (Hrun : Slack.searchUsers slack query
                 = users (List.filter (Slack.user_filter query) upstream))
    by (unfold Slack.searchUsers; rewrite Hlist; reflexivity).
  assert (Hsel : Spec.Selected (Spec.lower_matches query) upstream
                   (List.filter (Slack.user_filter query) upstream))
    by (apply filter_Selected; intros u _; apply user_filter_lower_matches).
  split; [|split; [|split]].
  - eauto.
  - intros Hq Hnames. exists (List.filter (Slack.user_filter query) upstream).
    split; [|exact Hrun].
    apply filter_Selected. intros u Hu. apply user_filter_matches; auto.
  - intros Hnone. rewrite Hrun, (Selected_none _ _ _ Hsel Hnone). reflexivity.
  - reflexivity.
Qed.

Lemma searchUsers_selects_matching_members_witness :
  (exists kept,
      Spec.Selected (Spec.member_matches "ADA")
        [ {| Slack.id := Some "U1"; Slack.name := Some "ada";
             Slack.real_name := Some "Ada Lovelace" |};
          {| Slack.id := Some "U2"; Slack.name := Some "bob"; Slack.real_name := None |};
          {| Slack.id := Some "U3"; Slack.name := Some "grace";
             Slack.real_name := Some "Grace ADAms" |} ] kept
      /\ Slack.searchUsers (H := Sample.runtime) Sample.slack_up "ADA"
         = Slack.ApiSuccess [("users", JArr (List.map Slack.user_object kept))])
  /\ Slack.searchUsers (H := Sample.runtime) Sample.slack_up "ADA"
     = Slack.ApiSuccess
         [("users",
           JArr [JObj [("id", JStr "U1"); ("name", JStr "ada");
                       ("real_name", JStr "Ada Lovelace")];
                 JObj [("id", JStr "U3"); ("name", JStr "grace");
                       ("real_name", JStr "Grace ADAms")]])].
Proof.
  split; [|reflexivity].
  apply (proj1 (proj2 (searchUsers_selects_matching_members (H := Sample.runtime)
                         Sample.slack_up "ADA" _ eq_refl))).
  - reflexivity.
  - intros u [<-|[<-|[<-|[]]]] n [E|E]; cbn in E; try discriminate E;
      injection E as <-; reflexivity.
Defined.

Lemma equal_ci_refl (s : string) : Spec.equal_ci s s.
Proof. apply fold_ascii_equal_ci. reflexivity. Qed.

(** C9 as stated fails: the member named with the Greek capitals alpha and
    sigma has the query, the capital sigma, in its name as it stands; yet
    [toLowerCase] turns the sigma that ends the name into the final small
    sigma and the query into the plain small sigma, so [searchUsers] does
    not return the member. *)
Lemma final_sigma_hides_a_member :
  Slack.users_list (Slack.client Sample.slack_greek)
  = Resolved
      {| Slack.members :=
           Some [ {| Slack.id := Some "U9"; Slack.name := Some Sample.alpha_sigma;
                     Slack.real_name := None |} ] |}
  /\ Spec.member_matches Sample.sigma
       {| Slack.id := Some "U9"; Slack.name := Some Sample.alpha_sigma;
          Slack.real_name := None |}
  /\ toLowerCase (Runtime := Sample.runtime) Sample.alpha_sigma = "ας"
  /\ toLowerCase (Runtime := Sample.runtime) Sample.sigma = "σ"
  /\ Slack.searchUsers (H := Sample.runtime) Sample.slack_greek Sample.sigma
     = Slack.ApiSuccess [("users", JArr [])].
Proof.
  split; [reflexivity|]. split; [|repeat split].
  left. exists Sample.alpha_sigma. split; [reflexivity|].
  exists "Α", Sample.sigma, "". split; [reflexivity | apply equal_ci_refl].
Qed.

(** ** The transport dispatcher: POST /mcp *)

Lemma known_Some (st : Mcp.Store) (header : option string) (t : Mcp.Transport) :
  Mcp.known st header = Some t <->
  exists id, header = Some id /\ id <> "" /\ Mcp.transports st !! id = Some t.
Proof.
  unfold Mcp.known. destruct (str_or_undefined header) as [id|] eqn:E.
  - apply str_or_undefined_Some in E. destruct E as [-> Hid]. split.
    + intros Ht. exists id. auto.
    + intros (id' & [= <-] & _ & Ht). exact Ht.
  - apply str_or_undefined_None in E. split; [discriminate|].
    intros (id & -> & Hid & _). destruct E as [E|[= E]]; congruence.
Qed.

Lemma known_None (st : Mcp.Store) (header : option string) :
  Mcp.known st header = None <->
  header = None \/ header = Some "" \/
  exists id, header = Some id /\ id <> "" /\ Mcp.transports st !! id = None.
Proof.
  unfold Mcp.known. destruct (str_or_undefined header) as [id|] eqn:E.
  - apply str_or_undefined_Some in E. destruct E as [-> Hid]. split.
    + intros Ht. right. right. exists id. auto.
    + intros [E|[[= E]|(id' & [= <-] & _ & Ht)]]; congruence.
  - apply str_or_undefined_None in E. split; [|reflexivity].
    intros _. destruct E as [E|E]; auto.
Qed.

Lemma known_carried (st : Mcp.Store) (id : string) :
  id <> "" -> Mcp.known st (Some id) = Mcp.transports st !! id.
Proof.
  intros Hid. unfold Mcp.known.
  assert (E : str_or_undefined (Some id) = Some id) by (apply str_or_undefined_Some; auto).
  rewrite E. reflexivity.
Qed.

(** C1, with the empty header counted as absent. For a POST to the RPC
    endpoint that passes the auth gate exactly one of three things happens.
    If the session-id header is present, not empty, and maps to a live entry
    of the registry, the request is forwarded to that entry's transport and
    the registry is unchanged. If the header is absent or empty and the body
    satisfies the initialize predicate, a transport is constructed, stored
    in the registry under the generated id, and the request is forwarded to
    it. In every other case (no id or an empty one and not an initialize
    call, or a non-empty id that is unknown) the answer is 400 with the
    JSON-RPC bad-request envelope, nothing is forwarded and the registry is
    unchanged. *)
Theorem post_dispatches_three_ways `{Runtime}
    (slack : Slack.SlackService) (apiKey : string)
    (st : Mcp.Store) (req : Mcp.Request) (sdk : Mcp.Sdk) :
  Mcp.checkAuth apiKey req = true ->
  let header := Express.mcp_session_id (Mcp.headers req) in
  let after := Mcp.post slack apiKey st req sdk in
  let fresh :=
    {| Mcp.instance := Mcp.constructed st; Mcp.sessionId := Mcp.randomUUID sdk |} in
  (exists id t,
      header = Some id /\ id <> "" /\ Mcp.transports st !! id = Some t
      /\ fst after = st /\ Mcp.forwarded (snd after) = Some t)
  \/
  ((header = None \/ header = Some "")
   /\ isInitializeRequest (Mcp.body req) = true
   /\ fst after
      = {| Mcp.transports := <[Mcp.randomUUID sdk := fresh]> (Mcp.transports st);
           Mcp.constructed := S (Mcp.constructed st) |}
   /\ Mcp.forwarded (snd after) = Some fresh)
  \/
  ((((header = None \/ header = Some "") /\ isInitializeRequest (Mcp.body req) = false)
    \/ (exists id, header = Some id /\ id <> "" /\ Mcp.transports st !! id = None))
   /\ after
      = (st,
         {| Mcp.answer :=
              Mcp.Answered
                (Express.Json 400
                   (JObj [("jsonrpc", JStr "2.0");
                          ("error",
                           JObj [("code", JNum (Int (-32000)));
                                 ("message",
                                  JStr "Bad request: missing session ID or not an init request")]);
                          ("id", JNull)]));
            Mcp.forwarded := None;
            Mcp.slack_calls := [] |})).
Proof.
  intros Hauth header after fresh. unfold after, Mcp.post. rewrite Hauth.
  cbn [negb]. fold header.
  destruct (Mcp.known st header) as [t|] eqn:Hknown.
  - left. apply known_Some in Hknown. destruct Hknown as (id & Hh & Hid & Ht).
    exists id, t. auto.
  - right. apply known_None in Hknown.
    rewrite truthy_str_undefined.
    destruct Hknown as [Hh|[Hh|(id & Hh & Hid & Ht)]].
    + rewrite Hh. cbn [str_or_undefined negb andb].
      destruct (isInitializeRequest (Mcp.body req)); [left | right]; auto.
    + rewrite Hh. cbn [str_or_undefined String.eqb negb andb].
      destruct (isInitializeRequest (Mcp.body req)); [left | right]; auto.
    + right.
      assert (E : str_or_undefined header = Some id)
        by (apply str_or_undefined_Some; auto).
      rewrite E. cbn [negb andb]. split; [|reflexivity].
      right. exists id. auto.
Qed.

Lemma post_dispatches_three_ways_witness :
  Mcp.forwarded
    (snd (Mcp.post (H := Sample.runtime) Sample.slack_up Sample.key Mcp.initial
            (Sample.rpc None Sample.initialize) (Sample.sdk_ok Sample.uuid1)))
  = Some {| Mcp.instance := 0; Mcp.sessionId := Sample.uuid1 |}.
Proof.
  destruct (post_dispatches_three_ways (H := Sample.runtime) Sample.slack_up Sample.key
              Mcp.initial (Sample.rpc None Sample.initialize) (Sample.sdk_ok Sample.uuid1)
              eq_refl)
    as [(id & t & E & _)|[(_ & _ & _ & F)|([(_ & E)|(id & E & _)] & _)]].
  - discriminate E.
  - exact F.
  - discriminate E.
  - discriminate E.
Defined.

(** C1 as stated fails: a POST that passes the auth gate and carries the
    session-id header with an empty value has its id present and unknown to
    the registry, yet with an initialize body it is not answered 400: a
    session is created and stored. *)
Lemma empty_session_header_opens_a_session :
  Mcp.checkAuth Sample.key (Sample.rpc (Some "") Sample.initialize) = true
  /\ Express.mcp_session_id (Mcp.headers (Sample.rpc (Some "") Sample.initialize))
     = Some ""
  /\ Mcp.transports Mcp.initial !! "" = None
  /\ Mcp.answer
       (snd (Mcp.post (H := Sample.runtime) Sample.slack_up Sample.key Mcp.initial
               (Sample.rpc (Some "") Sample.initialize) (Sample.sdk_ok Sample.uuid1)))
     <> Mcp.Answered Mcp.bad_request
  /\ Mcp.transports
       (fst (Mcp.post (H := Sample.runtime) Sample.slack_up Sample.key Mcp.initial
               (Sample.rpc (Some "") Sample.initialize) (Sample.sdk_ok Sample.uuid1)))
     !! Sample.uuid1
     = Some {| Mcp.instance := 0; Mcp.sessionId := Sample.uuid1 |}
  /\ fst (Mcp.post (H := Sample.runtime) Sample.slack_up Sample.key Mcp.initial
            (Sample.rpc (Some "") Sample.initialize) (Sample.sdk_ok Sample.uuid1))
     <> Mcp.initial.
Proof.
  split; [reflexivity|]. split; [reflexivity|]. split; [apply lookup_empty|].
  assert (Hlook :
    Mcp.transports
      (fst (Mcp.post (H := Sample.runtime) Sample.slack_up Sample.key Mcp.initial
              (Sample.rpc (Some "") Sample.initialize) (Sample.sdk_ok Sample.uuid1)))
    !! Sample.uuid1
    = Some {| Mcp.instance := 0; Mcp.sessionId := Sample.uuid1 |})
    by apply lookup_insert_eq.
  split; [discriminate|]. split; [exact Hlook|].
  intros E. rewrite E in Hlook. cbn [Mcp.initial Mcp.transports] in Hlook.
  rewrite lookup_empty in Hlook. discriminate Hlook.
Qed.

(** ** Faults of the transport *)

Lemma one_session_lookup :
  Mcp.transports Sample.one_session !! Sample.uuid1
  = Some {| Mcp.instance := 0; Mcp.sessionId := Sample.uuid1 |}.
Proof. apply lookup_insert_eq. Qed.

Lemma uuid1_not_empty : Sample.uuid1 <> "".
Proof. discriminate. Qed.

(** What POST does with a fault, for every request it forwards: a fault
    raised before anything was sent is answered with the internal-error
    envelope. *)
Lemma post_fault_is_caught `{Runtime} (slack : Slack.SlackService) (sdk : Mcp.Sdk)
    (t : Mcp.Transport) :
  Mcp.completion (Mcp.handleRequest sdk t) = Mcp.Throws false ->
  Mcp.answer (Mcp.forward_caught slack sdk t)
  = Mcp.Answered
      (Express.Json 500
         (JObj [("jsonrpc", JStr "2.0");
                ("error",
                 JObj [("code", JNum (Int (-32603)));
                       ("message", JStr "Internal server error")]);
                ("id", JNull)])).
Proof. intros E. unfold Mcp.forward_caught. simpl. rewrite E. reflexivity. Qed.

(** C2 on the code. A GET and a DELETE that pass the auth gate, carry the id
    of a live session and are forwarded to a transport whose [handleRequest]
    throws before anything was sent: the fault leaves the handler, and no
    internal-error envelope is the answer. The same fault under POST is
    answered 500 with code -32603. *)
Theorem get_and_delete_let_the_fault_escape :
  Mcp.get (H := Sample.runtime) Sample.slack_up Sample.key Sample.one_session
    (Sample.rpc (Some Sample.uuid1) Sample.tools_list) (Sample.sdk_throwing Sample.uuid2)
  = (Sample.one_session,
     {| Mcp.answer := Mcp.Unhandled;
        Mcp.forwarded := Some {| Mcp.instance := 0; Mcp.sessionId := Sample.uuid1 |};
        Mcp.slack_calls := [] |})
  /\ Mcp.delete_ (H := Sample.runtime) Sample.slack_up Sample.key Sample.one_session
       (Sample.rpc (Some Sample.uuid1) Sample.tools_list) (Sample.sdk_throwing Sample.uuid2)
     = (Sample.one_session,
        {| Mcp.answer := Mcp.Unhandled;
           Mcp.forwarded := Some {| Mcp.instance := 0; Mcp.sessionId := Sample.uuid1 |};
           Mcp.slack_calls := [] |})
  /\ Mcp.post (H := Sample.runtime) Sample.slack_up Sample.key Sample.one_session
       (Sample.rpc (Some Sample.uuid1) Sample.tools_list) (Sample.sdk_throwing Sample.uuid2)
     = (Sample.one_session,
        {| Mcp.answer := Mcp.Answered Mcp.internal_error;
           Mcp.forwarded := Some {| Mcp.instance := 0; Mcp.sessionId := Sample.uuid1 |};
           Mcp.slack_calls := [] |}).
Proof.
  unfold Mcp.get, Mcp.delete_, Mcp.post.
  assert (Hauth : Mcp.checkAuth Sample.key
                    (Sample.rpc (Some Sample.uuid1) Sample.tools_list) = true)
    by reflexivity.
  rewrite Hauth. cbn [negb Sample.rpc Mcp.headers Express.mcp_session_id].
  rewrite (known_carried _ _ uuid1_not_empty), one_session_lookup.
  repeat split.
Qed.

(** ** The registry over a run *)

(** A request leaves the registry as it is, adds the entry of the session
    it opens, or, a DELETE forwarded to a transport that closes, removes
    the entry that [onclose] of that transport removes. *)
Lemma mount_registry `{Runtime} (slack : Slack.SlackService) (apiKey : string)
    (v : Mcp.Verb) (st : Mcp.Store) (req : Mcp.Request) (sdk : Mcp.Sdk) :
  fst (Mcp.mountMcp slack apiKey v st req sdk) = st
  \/ fst (Mcp.mountMcp slack apiKey v st req sdk)
     = {| Mcp.transports :=
            <[Mcp.randomUUID sdk :=
                {| Mcp.instance := Mcp.constructed st;
                   Mcp.sessionId := Mcp.randomUUID sdk |}]> (Mcp.transports st);
          Mcp.constructed := S (Mcp.constructed st) |}
  \/ (v = Mcp.DELETE
      /\ exists id t,
           Express.mcp_session_id (Mcp.headers req) = Some id
           /\ Mcp.transports st !! id = Some t
           /\ fst (Mcp.mountMcp slack apiKey v st req sdk) = Mcp.onclose t st).
Proof.
  by_verb v;
    destruct (negb (Mcp.checkAuth apiKey req)); auto;
    destruct (Mcp.known st _) as [t|] eqn:Hk; auto.
  - destruct (negb _ && _); auto.
  - cbn [fst]. destruct (Mcp.closes_on_delete sdk t); auto.
    right. right. split; [reflexivity|].
    apply known_Some in Hk. destruct Hk as (id & Hh & _ & Ht). eauto.
Qed.

Lemma step_keeps_absent `{Runtime} (slack : Slack.SlackService) (apiKey : string)
    (st : Mcp.Store) (e : Mcp.Event) (sid : string) :
  (forall v r s, e = Mcp.Incoming v r s -> Mcp.randomUUID s <> sid) ->
  Mcp.transports st !! sid = None ->
  Mcp.transports (fst (Mcp.step slack apiKey st e)) !! sid = None.
Proof.
  intros Hdraw Habsent.
  assert (Hclose : forall t, Mcp.transports (Mcp.onclose t st) !! sid = None).
  { intros t. cbn [Mcp.onclose Mcp.transports].
    destruct (decide (Mcp.sessionId t = sid)) as [->|Hne].
    - apply lookup_delete_eq.
    - rewrite lookup_delete_ne; [exact Habsent | exact Hne]. }
  destruct e as [v req sdk|t]; cbn [Mcp.step]; [|apply Hclose].
  destruct (Mcp.mountMcp slack apiKey v st req sdk) as [st' o] eqn:E. cbn [fst].
  destruct (mount_registry slack apiKey v st req sdk) as [R|[R|(_ & id & t & _ & _ & R)]];
    rewrite E in R; cbn [fst] in R; subst st'.
  - exact Habsent.
  - cbn [Mcp.transports]. rewrite lookup_insert_ne; [exact Habsent | eauto].
  - apply Hclose.
Qed.

Lemma run_keeps_absent `{Runtime} (slack : Slack.SlackService) (apiKey : string)
    (es : list Mcp.Event) (st : Mcp.Store) (sid : string) :
  (forall v r s, In (Mcp.Incoming v r s) es -> Mcp.randomUUID s <> sid) ->
  Mcp.transports st !! sid = None ->
  Mcp.transports (Mcp.run slack apiKey st es) !! sid = None.
Proof.
  revert st. induction es as [|e es IH]; intros st Hdraw Habsent; cbn [Mcp.run].
  - exact Habsent.
  - apply IH.
    + intros v r s Hin. apply (Hdraw v r s). right. exact Hin.
    + apply step_keeps_absent; [|exact Habsent].
      intros v r s ->. apply (Hdraw v r s). left. reflexivity.
Qed.

(** An entry is still there after an event, or gone; it is never replaced,
    unless its id is drawn again. *)
Lemma step_entry_or_gone `{Runtime} (slack : Slack.SlackService) (apiKey : string)
    (st : Mcp.Store) (e : Mcp.Event) (sid : string) (t : Mcp.Transport) :
  (forall v r s, e = Mcp.Incoming v r s -> Mcp.randomUUID s <> sid) ->
  Mcp.transports st !! sid = Some t ->
  Mcp.transports (fst (Mcp.step slack apiKey st e)) !! sid = Some t
  \/ Mcp.transports (fst (Mcp.step slack apiKey st e)) !! sid = None.
Proof.
  intros Hdraw Hlive.
  assert (Hclose : forall t',
             Mcp.transports (Mcp.onclose t' st) !! sid = Some t
             \/ Mcp.transports (Mcp.onclose t' st) !! sid = None).
  { intros t'. cbn [Mcp.onclose Mcp.transports].
    destruct (decide (Mcp.sessionId t' = sid)) as [->|Hne].
    - right. apply lookup_delete_eq.
    - left. rewrite lookup_delete_ne; [exact Hlive | exact Hne]. }
  destruct e as [v req sdk|t']; cbn [Mcp.step]; [|apply Hclose].
  destruct (Mcp.mountMcp slack apiKey v st req sdk) as [st' o] eqn:E. cbn [fst].
  destruct (mount_registry slack apiKey v st req sdk) as [R|[R|(_ & id & t' & _ & _ & R)]];
    rewrite E in R; cbn [fst] in R; subst st'.
  - left. exact Hlive.
  - left. cbn [Mcp.transports]. rewrite lookup_insert_ne; [exact Hlive | eauto].
  - apply Hclose.
Qed.

Lemma run_entry_or_gone `{Runtime} (slack : Slack.SlackService) (apiKey : string)
    (es : list Mcp.Event) (st : Mcp.Store) (sid : string) (t : Mcp.Transport) :
  (forall v r s, In (Mcp.Incoming v r s) es -> Mcp.randomUUID s <> sid) ->
  Mcp.transports st !! sid = Some t ->
  Mcp.transports (Mcp.run slack apiKey st es) !! sid = Some t
  \/ Mcp.transports (Mcp.run slack apiKey st es) !! sid = None.
Proof.
  revert st. induction es as [|e es IH]; intros st Hdraw Hlive; cbn [Mcp.run].
  - left. exact Hlive.
  - assert (Hrest : forall v r s, In (Mcp.Incoming v r s) es -> Mcp.randomUUID s <> sid)
      by (intros v r s Hin; apply (Hdraw v r s); right; exact Hin).
    destruct (step_entry_or_gone slack apiKey st e sid t) as [Hstep|Hstep].
    + intros v r s ->. apply (Hdraw v r s). left. reflexivity.
    + exact Hlive.
    + apply IH; assumption.
    + right. apply run_keeps_absent; assumption.
Qed.

(** A request that passes the auth gate and carries the id of a live
    session is forwarded to the transport stored under that id. *)
Lemma live_session_is_reached `{Runtime} (slack : Slack.SlackService) (apiKey : string)
    (v : Mcp.Verb) (st : Mcp.Store) (req : Mcp.Request) (sdk : Mcp.Sdk)
    (sid : string) (t : Mcp.Transport) :
  Mcp.checkAuth apiKey req = true ->
  Express.mcp_session_id (Mcp.headers req) = Some sid ->
  sid <> "" ->
  Mcp.transports st !! sid = Some t ->
  Mcp.forwarded (snd (Mcp.mountMcp slack apiKey v st req sdk)) = Some t.
Proof.
  intros Hauth Hh Hsid Ht.
  by_verb v;
    rewrite Hauth, Hh, (known_carried st sid Hsid), Ht; reflexivity.
Qed.

(** A request that passes the auth gate and carries an id the registry does
    not hold is answered 400 by the handler itself. *)
Lemma unknown_session_is_rejected `{Runtime} (slack : Slack.SlackService)
    (apiKey : string) (v : Mcp.Verb) (st : Mcp.Store) (req : Mcp.Request)
    (sdk : Mcp.Sdk) (sid : string) :
  Mcp.checkAuth apiKey req = true ->
  Express.mcp_session_id (Mcp.headers req) = Some sid ->
  sid <> "" ->
  Mcp.transports st !! sid = None ->
  Mcp.mountMcp slack apiKey v st req sdk
  = (st, Mcp.direct match v with
                    | Mcp.POST => Mcp.bad_request
                    | _ => Mcp.invalid_session
                    end).
Proof.
  intros Hauth Hh Hsid Ht.
  by_verb v;
    rewrite Hauth, Hh, (known_carried st sid Hsid), Ht; try reflexivity.
  rewrite truthy_str_undefined.
  assert (E : str_or_undefined (Some sid) = Some sid)
    by (apply str_or_undefined_Some; auto).
  rewrite E. reflexivity.
Qed.

(** The registry of a run that starts empty is well formed: transports are
    stored under the id they generate, and the next transport constructed
    is none of the stored ones. *)
Lemma initial_well_formed : Mcp.well_formed Mcp.initial.
Proof. intros id t Ht. cbn in Ht. rewrite lookup_empty in Ht. discriminate. Qed.

Lemma onclose_well_formed (st : Mcp.Store) (t : Mcp.Transport) :
  Mcp.well_formed st -> Mcp.well_formed (Mcp.onclose t st).
Proof.
  intros Hwf id t0. cbn [Mcp.onclose Mcp.transports Mcp.constructed].
  rewrite lookup_delete_Some. intros [_ Ht]. exact (Hwf id t0 Ht).
Qed.

Lemma step_well_formed `{Runtime} (slack : Slack.SlackService) (apiKey : string)
    (st : Mcp.Store) (e : Mcp.Event) :
  Mcp.well_formed st -> Mcp.well_formed (fst (Mcp.step slack apiKey st e)).
Proof.
  intros Hwf. destruct e as [v req sdk|t]; cbn [Mcp.step];
    [|apply onclose_well_formed, Hwf].
  destruct (Mcp.mountMcp slack apiKey v st req sdk) as [st' o] eqn:E. cbn [fst].
  destruct (mount_registry slack apiKey v st req sdk) as [R|[R|(_ & id & t & _ & _ & R)]];
    rewrite E in R; cbn [fst] in R; subst st';
    [exact Hwf | | apply onclose_well_formed, Hwf].
  intros id t. cbn [Mcp.transports Mcp.constructed].
  rewrite lookup_insert_Some. intros [[<- <-]|[_ Ht]].
  - cbn. split; [reflexivity | lia].
  - destruct (Hwf id t Ht) as [Hid Hlt]. split; [exact Hid | lia].
Qed.

Lemma run_well_formed `{Runtime} (slack : Slack.SlackService) (apiKey : string)
    (es : list Mcp.Event) (st : Mcp.Store) :
  Mcp.well_formed st -> Mcp.well_formed (Mcp.run slack apiKey st es).
Proof.
  revert st. induction es as [|e es IH]; intros st Hwf; cbn [Mcp.run].
  - exact Hwf.
  - apply IH, step_well_formed, Hwf.
Qed.

(** In a well-formed registry an entry stays through an event that neither
    draws its id, nor closes a transport of its id, nor is a DELETE that
    carries its id. *)
Lemma step_keeps_entry `{Runtime} (slack : Slack.SlackService) (apiKey : string)
    (st : Mcp.Store) (e : Mcp.Event) (sid : string) :
  Mcp.well_formed st ->
  (forall v r s, e = Mcp.Incoming v r s -> Mcp.randomUUID s <> sid) ->
  (forall t, e = Mcp.Closes t -> Mcp.sessionId t <> sid) ->
  (forall r s, e = Mcp.Incoming Mcp.DELETE r s ->
               Express.mcp_session_id (Mcp.headers r) <> Some sid) ->
  Mcp.transports (fst (Mcp.step slack apiKey st e)) !! sid = Mcp.transports st !! sid.
Proof.
  intros Hwf Hdraw Hclose Hdelete. destruct e as [v req sdk|t]; cbn [Mcp.step].
  - destruct (Mcp.mountMcp slack apiKey v st req sdk) as [st' o] eqn:E. cbn [fst].
    destruct (mount_registry slack apiKey v st req sdk)
      as [R|[R|(-> & id & t & Hh & Ht & R)]];
      rewrite E in R; cbn [fst] in R; subst st'.
    + reflexivity.
    + cbn [Mcp.transports]. apply lookup_insert_ne. eauto.
    + cbn [Mcp.onclose Mcp.transports]. apply lookup_delete_ne.
      destruct (Hwf id t Ht) as [-> _]. intros ->.
      exact (Hdelete req sdk eq_refl Hh).
  - cbn [fst Mcp.onclose Mcp.transports]. apply lookup_delete_ne. eauto.
Qed.

Lemma run_keeps_entry `{Runtime} (slack : Slack.SlackService) (apiKey : string)
    (es : list Mcp.Event) (st : Mcp.Store) (sid : string) :
  Mcp.well_formed st ->
  (forall v r s, In (Mcp.Incoming v r s) es -> Mcp.randomUUID s <> sid) ->
  (forall t, In (Mcp.Closes t) es -> Mcp.sessionId t <> sid) ->
  (forall r s, In (Mcp.Incoming Mcp.DELETE r s) es ->
               Express.mcp_session_id (Mcp.headers r) <> Some sid) ->
  Mcp.transports (Mcp.run slack apiKey st es) !! sid = Mcp.transports st !! sid.
Proof.
  revert st. induction es as [|e es IH]; intros st Hwf Hdraw Hclose Hdelete;
    cbn [Mcp.run].
  - reflexivity.
  - rewrite IH.
    + apply step_keeps_entry; [exact Hwf | | |].
      * intros v r s ->. apply (Hdraw v r s). left. reflexivity.
      * intros t ->. apply Hclose. left. reflexivity.
      * intros r s ->. apply (Hdelete r s). left. reflexivity.
    + apply step_well_formed, Hwf.
    + intros v r s Hin. apply (Hdraw v r s). right. exact Hin.
    + intros t Hin. apply Hclose. right. exact Hin.
    + intros r s Hin. apply (Hdelete r s). right. exact Hin.
Qed.

(** C5, with what the handler leaves to [randomUUID] said as such. An
    initialize call without session-id header that passes the auth gate
    stores the generated id with the transport constructed for it and
    forwards the call to that transport; the entries under every other id
    are kept. The handler makes no test for a collision: the id is distinct
    from the live ids when [randomUUID] draws one that is not live, and then
    every session that was live stays live with its own transport. In a
    well-formed registry the new transport is none of the transports
    already stored. From then on, as long as the generator does not draw the
    id again, the registry either still maps the id to that same transport,
    and every request that passes the auth gate and carries the id is
    forwarded to it, on each of the three verbs, or no longer holds the id;
    and it still holds it as long as no transport of that id has closed and
    no DELETE has carried the id. *)
Theorem session_is_stored_and_stable `{Runtime}
    (slack : Slack.SlackService) (apiKey : string)
    (st : Mcp.Store) (req : Mcp.Request) (sdk : Mcp.Sdk) :
  let sid := Mcp.randomUUID sdk in
  let t := {| Mcp.instance := Mcp.constructed st; Mcp.sessionId := sid |} in
  let opened := fst (Mcp.post slack apiKey st req sdk) in
  let not_drawn (es : list Mcp.Event) :=
    forall v0 r0 s0, In (Mcp.Incoming v0 r0 s0) es -> Mcp.randomUUID s0 <> sid in
  Mcp.checkAuth apiKey req = true ->
  Express.mcp_session_id (Mcp.headers req) = None ->
  isInitializeRequest (Mcp.body req) = true ->
  sid <> "" ->
  Mcp.transports opened !! sid = Some t
  /\ Mcp.forwarded (snd (Mcp.post slack apiKey st req sdk)) = Some t
  /\ (forall id, id <> sid -> Mcp.transports opened !! id = Mcp.transports st !! id)
  /\ (Mcp.transports st !! sid = None ->
      forall id t0, Mcp.transports st !! id = Some t0 ->
                    Mcp.transports opened !! id = Some t0)
  /\ (Mcp.well_formed st ->
      forall id t0, Mcp.transports st !! id = Some t0 ->
                    Mcp.instance t0 <> Mcp.instance t)
  /\ (forall (between : list Mcp.Event) (v : Mcp.Verb) (req' : Mcp.Request)
             (sdk' : Mcp.Sdk),
         not_drawn between ->
         Mcp.checkAuth apiKey req' = true ->
         Express.mcp_session_id (Mcp.headers req') = Some sid ->
         let now := Mcp.run slack apiKey opened between in
         Mcp.transports now !! sid = None
         \/ (Mcp.transports now !! sid = Some t
             /\ Mcp.forwarded (snd (Mcp.mountMcp slack apiKey v now req' sdk')) = Some t))
  /\ (Mcp.well_formed st ->
      forall between : list Mcp.Event,
        not_drawn between ->
        (forall t0, In (Mcp.Closes t0) between -> Mcp.sessionId t0 <> sid) ->
        (forall r0 s0, In (Mcp.Incoming Mcp.DELETE r0 s0) between ->
                       Express.mcp_session_id (Mcp.headers r0) <> Some sid) ->
        Mcp.transports (Mcp.run slack apiKey opened between) !! sid = Some t).
Proof.
  intros sid t opened not_drawn Hauth Hh Hinit Hsid.
  assert (Hpost : Mcp.post slack apiKey st req sdk
                  = ({| Mcp.transports := <[sid := t]> (Mcp.transports st);
                        Mcp.constructed := S (Mcp.constructed st) |},
                     Mcp.forward_caught slack sdk t)).
  { unfold Mcp.post. rewrite Hauth, Hh, Hinit. reflexivity. }
  assert (Hstored : Mcp.transports opened !! sid = Some t).
  { unfold opened. rewrite Hpost. apply lookup_insert_eq. }
  assert (Hothers : forall id, id <> sid ->
                               Mcp.transports opened !! id = Mcp.transports st !! id).
  { intros id Hid. unfold opened. rewrite Hpost. cbn [fst Mcp.transports].
    apply lookup_insert_ne. congruence. }
  split; [exact Hstored|]. split; [rewrite Hpost; reflexivity|].
  split; [exact Hothers|]. split; [|split; [|split]].
  - intros Hfresh id t0 Hlive. rewrite Hothers; [exact Hlive|].
    intros ->. congruence.
  - intros Hwf id t0 Hlive. destruct (Hwf id t0 Hlive) as [_ Hlt].
    unfold t. cbn [Mcp.instance]. lia.
  - intros between v req' sdk' Hdraw Hauth' Hh' now.
    destruct (run_entry_or_gone slack apiKey between opened sid t Hdraw Hstored)
      as [Hnow|Hnow]; [right | left; exact Hnow].
    split; [exact Hnow|].
    apply (live_session_is_reached slack apiKey v now req' sdk' sid t); assumption.
  - intros Hwf between Hdraw Hclose Hdelete.
    rewrite run_keeps_entry; [exact Hstored | | assumption | assumption | assumption].
    pose proof (step_well_formed slack apiKey st (Mcp.Incoming Mcp.POST req sdk) Hwf)
      as Hwf'.
    cbn [Mcp.step Mcp.mountMcp] in Hwf'. unfold opened.
    rewrite Hpost in Hwf' |- *. exact Hwf'.
Qed.

Lemma session_is_stored_and_stable_witness :
  Mcp.transports
    (Mcp.run (H := Sample.runtime) Sample.slack_up Sample.key Sample.one_session
       [Mcp.Incoming Mcp.POST (Sample.rpc None Sample.initialize)
          (Sample.sdk_ok Sample.uuid2);
        Mcp.Incoming Mcp.DELETE (Sample.rpc (Some Sample.uuid2) Sample.tools_list)
          (Sample.sdk_ok Sample.uuid2);
        Mcp.Closes {| Mcp.instance := 1; Mcp.sessionId := Sample.uuid2 |}])
    !! Sample.uuid1
  = Some {| Mcp.instance := 0; Mcp.sessionId := Sample.uuid1 |}.
Proof.
  destruct (session_is_stored_and_stable (H := Sample.runtime) Sample.slack_up Sample.key
              Mcp.initial (Sample.rpc None Sample.initialize) (Sample.sdk_ok Sample.uuid1)
              eq_refl eq_refl eq_refl uuid1_not_empty)
    as (_ & _ & _ & _ & _ & _ & Hstays).
  apply (Hstays initial_well_formed).
  - intros v0 r0 s0 [E|[E|[E|[]]]]; try discriminate E;
      injection E as _ _ <-; discriminate.
  - intros t0 [E|[E|[E|[]]]]; try discriminate E. injection E as <-. discriminate.
  - intros r0 s0 [E|[E|[E|[]]]]; try discriminate E.
    injection E as <- _. discriminate.
Defined.

(** C5 as stated fails: the handler stores whatever id [randomUUID] returns.
    An initialize call without session-id header that passes the auth gate,
    for which the generator returns the id of a live session, stores an id
    that is not distinct from the live ones: the entry of the live session
    is replaced, and a request that carries the id no longer reaches the
    transport that was constructed for that session. *)
Lemma drawn_id_may_be_live :
  Mcp.checkAuth Sample.key (Sample.rpc None Sample.initialize) = true
  /\ Mcp.transports Sample.one_session !! Mcp.randomUUID (Sample.sdk_ok Sample.uuid1)
     = Some {| Mcp.instance := 0; Mcp.sessionId := Sample.uuid1 |}
  /\ Mcp.transports
       (fst (Mcp.post (H := Sample.runtime) Sample.slack_up Sample.key
               Sample.one_session (Sample.rpc None Sample.initialize)
               (Sample.sdk_ok Sample.uuid1)))
     !! Sample.uuid1
     = Some {| Mcp.instance := 1; Mcp.sessionId := Sample.uuid1 |}
  /\ Mcp.forwarded
       (snd (Mcp.mountMcp (H := Sample.runtime) Sample.slack_up Sample.key Mcp.GET
               (fst (Mcp.post (H := Sample.runtime) Sample.slack_up Sample.key
                       Sample.one_session (Sample.rpc None Sample.initialize)
                       (Sample.sdk_ok Sample.uuid1)))
               (Sample.rpc (Some Sample.uuid1) Sample.tools_list)
               (Sample.sdk_ok Sample.uuid2)))
     = Some {| Mcp.instance := 1; Mcp.sessionId := Sample.uuid1 |}.
Proof.
  split; [reflexivity|]. split; [apply one_session_lookup|].
  assert (Hstored :
    Mcp.transports
      (fst (Mcp.post (H := Sample.runtime) Sample.slack_up Sample.key
              Sample.one_session (Sample.rpc None Sample.initialize)
              (Sample.sdk_ok Sample.uuid1)))
    !! Sample.uuid1
    = Some {| Mcp.instance := 1; Mcp.sessionId := Sample.uuid1 |})
    by apply lookup_insert_eq.
  split; [exact Hstored|].
  apply (live_session_is_reached Sample.slack_up Sample.key Mcp.GET _
           (Sample.rpc (Some Sample.uuid1) Sample.tools_list)
           (Sample.sdk_ok Sample.uuid2) Sample.uuid1);
    [reflexivity | reflexivity | exact uuid1_not_empty | exact Hstored].
Qed.



(** * Further properties of the code *)

(** ** The capability client *)

Lemma str_or_not_empty (s : option string) (d : string) :
  d <> "" -> str_or s d <> "".
Proof.
  intros Hd. unfold str_or. destruct s as [x|]; [|exact Hd].
  destruct (String.eqb_spec x ""); assumption.
Qed.

(** X1. A failure returned by any of the five operations of the service
    never has an empty error code. When the WebClient rejects with an error,
    every operation returns the failure whose code is the error's
    [data.error] if that is present and not empty and "slack_error"
    otherwise, and whose detail is the error's message. *)
Theorem failure_code_is_never_empty `{Runtime}
    (slack : Slack.SlackService) (c : Slack.SlackCall) :
  (forall (error : string) (detail : option string),
      Slack.perform slack c = Slack.ApiError error detail -> error <> "")
  /\
  (forall err : Slack.SlackError,
      Slack.perform
        {| Slack.client := Spec.rejecting_with err;
           Slack.userClient := None |} c
      = Slack.ApiError
          (match Slack.data_error err with
           | Some code => if String.eqb code "" then "slack_error" else code
           | None => "slack_error"
           end)
          (Slack.message err)).
Proof.
  split.
  - intros error detail.
    assert (Hcaught : forall err,
               Slack.caught err = Slack.ApiError error detail -> error <> "").
    { intros err E. unfold Slack.caught in E. injection E as <- <-.
      apply str_or_not_empty. discriminate. }
    destruct c as [channel text|channel limit cursor|query count|query|userId];
      cbn [Slack.perform].
    + unfold Slack.sendMessage.
      destruct (Slack.chat_postMessage _ _ _); [discriminate | apply Hcaught].
    + unfold Slack.getChannelHistory.
      destruct (Slack.conversations_history _ _ _ _); [discriminate | apply Hcaught].
    + unfold Slack.searchMessages.
      destruct (Slack.search_messages _ _ _); [discriminate | apply Hcaught].
    + unfold Slack.searchUsers.
      destruct (Slack.users_list _); [discriminate | apply Hcaught].
    + unfold Slack.openDm.
      destruct (Slack.conversations_open _ _); [discriminate | apply Hcaught].
  - intros err. destruct c; cbn; unfold Slack.caught, str_or;
      destruct (Slack.data_error err); reflexivity.
Qed.

Lemma failure_code_is_never_empty_witness : "channel_not_found" <> "".
Proof.
  exact (proj1 (failure_code_is_never_empty (H := Sample.runtime)
                  Sample.slack_down (Slack.OpenDm "U1"))
           "channel_not_found" (Some "An API error occurred: channel_not_found")
           eq_refl).
Defined.

(** X2. On a service that holds a user client besides the bot client, the
    history and the message search are answered by the user client alone,
    and sending, the user listing and opening a DM by the bot client alone:
    each call returns what a service holding only that one client
    returns. *)
Theorem user_client_reads_bot_client_writes `{Runtime}
    (bot user : Slack.WebClient) (c : Slack.SlackCall) :
  Slack.perform {| Slack.client := bot; Slack.userClient := Some user |} c
  = Slack.perform
      {| Slack.client := Spec.deciding_client bot user c; Slack.userClient := None |} c.
Proof. destruct c; reflexivity. Qed.

Lemma js_or_truthy (a b : JsValue) : truthy b = true -> truthy (js_or a b) = true.
Proof. intros Hb. unfold js_or. destruct (truthy a) eqn:E; [exact E | exact Hb]. Qed.

(** X3. A successful history result always has a defined, truthy [messages]
    (the upstream list, or the empty array when upstream gave none) and a
    [next_cursor] that is null or a non-empty string; a successful search
    result always has a truthy [messages]. *)
Theorem success_fields_are_filled_in (slack : Slack.SlackService) :
  (forall channel limit cursor fields,
      Slack.getChannelHistory slack channel limit cursor = Slack.ApiSuccess fields ->
      exists found next,
        fields = [("messages", found); ("next_cursor", next)]
        /\ truthy found = true
        /\ (next = JNull \/ exists s, s <> "" /\ next = JStr s))
  /\
  (forall query count fields,
      Slack.searchMessages slack query count = Slack.ApiSuccess fields ->
      exists found, fields = [("messages", found)] /\ truthy found = true).
Proof.
  split.
  - intros channel limit cursor fields. unfold Slack.getChannelHistory.
    destruct (Slack.conversations_history _ _ _ _) as [r|err]; [|discriminate].
    intros [= <-]. eexists _, _. split; [reflexivity|]. split.
    + apply js_or_truthy. reflexivity.
    + unfold js_or. destruct (Slack.next_cursor r) as [s|]; cbn; [|left; reflexivity].
      destruct (String.eqb_spec s ""); cbn; [left; reflexivity|].
      right. exists s. auto.
  - intros query count fields. unfold Slack.searchMessages.
    destruct (Slack.search_messages _ _ _) as [r|err]; [|discriminate].
    intros [= <-]. eexists. split; [reflexivity|]. apply js_or_truthy. reflexivity.
Qed.

Lemma success_fields_are_filled_in_witness :
  exists found next,
    [("messages", JArr [JObj [("text", JStr "hi")]]); ("next_cursor", JNull)]
    = [("messages", found); ("next_cursor", next)]
    /\ truthy found = true
    /\ (next = JNull \/ exists s, s <> "" /\ next = JStr s).
Proof.
  exact (proj1 (success_fields_are_filled_in Sample.slack_up)
           "C01ABC" (Some (Int 10)) None _ eq_refl).
Defined.

Lemma includes_empty (s : string) : includes s "" = true.
Proof. destruct s; reflexivity. Qed.

Lemma user_filter_empty `{Runtime} (u : Slack.Member) :
  Slack.user_filter "" u = Spec.named u.
Proof.
  unfold Slack.user_filter, Slack.lower_includes, Spec.named.
  rewrite (toLowerCase_ascii "" eq_refl). cbn [fold_ascii].
  destruct (Slack.real_name u), (Slack.name u);
    rewrite ?includes_empty; reflexivity.
Qed.

(** X4. Edge cases of [searchUsers], the upstream listing having resolved:
    the empty query returns every member that has a [name] or a [real_name]
    and drops the members that have neither; a listing without [members]
    gives ok true with no users, whatever the query. *)
Theorem searchUsers_empty_query_and_no_members `{Runtime}
    (slack : Slack.SlackService) (listing : Slack.UsersListResult) :
  Slack.users_list (Slack.client slack) = Resolved listing ->
  Slack.searchUsers slack ""
  = Slack.ApiSuccess
      [("users",
        JArr (List.map Slack.user_object
                (List.filter Spec.named (default [] (Slack.members listing)))))]
  /\ (Slack.members listing = None ->
      forall query,
        Slack.searchUsers slack query = Slack.ApiSuccess [("users", JArr [])]).
Proof.
  intros Hlist. unfold Slack.searchUsers. rewrite Hlist. split.
  - cbn zeta. rewrite (List.filter_ext _ _ user_filter_empty). reflexivity.
  - intros Hnone query. rewrite Hnone. reflexivity.
Qed.

Lemma searchUsers_empty_query_and_no_members_witness :
  Slack.searchUsers (H := Sample.runtime) Sample.slack_up ""
  = Slack.ApiSuccess
      [("users",
        JArr (List.map Slack.user_object
                [ {| Slack.id := Some "U1"; Slack.name := Some "ada";
                     Slack.real_name := Some "Ada Lovelace" |};
                  {| Slack.id := Some "U2"; Slack.name := Some "bob";
                     Slack.real_name := None |};
                  {| Slack.id := Some "U3"; Slack.name := Some "grace";
                     Slack.real_name := Some "Grace ADAms" |} ]))].
Proof.
  exact (proj1 (searchUsers_empty_query_and_no_members (H := Sample.runtime)
                  Sample.slack_up _ eq_refl)).
Defined.

(** X5. The case of an ASCII query does not matter to [searchUsers]: two
    ASCII queries that are the same, letter by letter, when case is ignored
    return the same result, whatever the names of the members. *)
Theorem searchUsers_ignores_query_case `{Runtime}
    (slack : Slack.SlackService) (query query' : string) :
  is_ascii query = true ->
  is_ascii query' = true ->
  Spec.equal_ci query query' ->
  Slack.searchUsers slack query = Slack.searchUsers slack query'.
Proof.
  intros Hq Hq' Hsame. apply fold_ascii_equal_ci in Hsame.
  unfold Slack.searchUsers.
  destruct (Slack.users_list (Slack.client slack)) as [r|err]; [|reflexivity].
  cbn zeta. do 5 f_equal.
  apply List.filter_ext. intros u.
  unfold Slack.user_filter, Slack.lower_includes.
  rewrite (toLowerCase_ascii query Hq), (toLowerCase_ascii query' Hq'), Hsame.
  reflexivity.
Qed.

Lemma searchUsers_ignores_query_case_witness :
  Slack.searchUsers (H := Sample.runtime) Sample.slack_up "AdA"
  = Slack.searchUsers (H := Sample.runtime) Sample.slack_up "aDa".
Proof.
  apply (searchUsers_ignores_query_case (H := Sample.runtime) Sample.slack_up "AdA" "aDa");
    [reflexivity | reflexivity |].
  apply fold_ascii_equal_ci. reflexivity.
Defined.

(** ** The REST application *)

(** A handler makes no call and answers by itself, 200 (health) or 400, or
    leaves the answer to Express, 404 for a path without route and 500 for
    the send handler that threw on an unparsed body; or it makes one call
    and answers with [respond] of its result. *)
Lemma handler_shape `{Runtime} (slack : Slack.SlackService) (route : Rest.Route) :
  (Slack.calls (Rest.handler slack route) = []
   /\ (Slack.result (Rest.handler slack route)
       = Express.Json 200 (JObj [("ok", JBool true); ("status", JStr "healthy")])
       \/ (exists detail,
              Slack.result (Rest.handler slack route)
              = Express.Json 400
                  (JObj [("ok", JBool false); ("error", JStr "bad_request");
                         ("detail", JStr detail)]))
       \/ (Slack.result (Rest.handler slack route) = Express.Page 404
           /\ exists api, route = Rest.Unrouted api)
       \/ (Slack.result (Rest.handler slack route) = Express.Page 500
           /\ exists body,
                route = Rest.POST_api_messages_send body
                /\ (body = JUndefined \/ body = JNull))))
  \/ (exists c,
         Rest.handler slack route = ([c], Rest.respond (Slack.perform slack c))).
Proof.
  destruct route as [|body|params q|q|api]; cbn [Rest.handler].
  - left. split; [reflexivity|]. left. reflexivity.
  - assert (Hbody : body = JUndefined \/ body = JNull
                    \/ (body <> JUndefined /\ body <> JNull))
      by (destruct body; auto; right; right; split; discriminate).
    destruct Hbody as [-> | [-> | [Hu Hn]]].
    + left. split; [reflexivity|]. right. right. right.
      split; [reflexivity|]. eauto.
    + left. split; [reflexivity|]. right. right. right.
      split; [reflexivity|]. eauto.
    + rewrite (messages_send_destructured slack body Hu Hn).
      destruct (negb _ || negb _).
      * left. split; [reflexivity|]. right. left. eexists. reflexivity.
      * right. eexists (Slack.SendMessage _ _). reflexivity.
  - right. eexists. reflexivity.
  - unfold Rest.search. destruct (str_or_undefined (Rest.query q)) as [query|].
    + right. eexists. reflexivity.
    + left. split; [reflexivity|]. right. left. eexists. reflexivity.
  - left. split; [reflexivity|]. right. right. left. split; [reflexivity|]. eauto.
Qed.

(** The shape of a run of the application: no call and an answer of its
    own or of Express, or one call and its result as answer. *)
Lemma app_shape `{Runtime}
    (slack : Slack.SlackService) (apiKey : string) (req : Rest.Request) :
  (Slack.calls (Rest.app slack apiKey req) = []
   /\ (Slack.result (Rest.app slack apiKey req)
       = Express.Json 200 (JObj [("ok", JBool true); ("status", JStr "healthy")])
       \/ (exists detail,
              Slack.result (Rest.app slack apiKey req)
              = Express.Json 400
                  (JObj [("ok", JBool false); ("error", JStr "bad_request");
                         ("detail", JStr detail)]))
       \/ Slack.result (Rest.app slack apiKey req)
          = Express.Json 401
              (JObj [("ok", JBool false); ("error", JStr "unauthorized");
                     ("detail", JStr "Missing or invalid API key")])
       \/ (Slack.result (Rest.app slack apiKey req) = Express.Page 404
           /\ exists api, Rest.route req = Rest.Unrouted api)
       \/ (Slack.result (Rest.app slack apiKey req) = Express.Page 500
           /\ exists body,
                Rest.route req = Rest.POST_api_messages_send body
                /\ (body = JUndefined \/ body = JNull))))
  \/ (exists c,
         Slack.calls (Rest.app slack apiKey req) = [c]
         /\ Slack.result (Rest.app slack apiKey req)
            = Express.Json (if Slack.ok (Slack.perform slack c) then 200 else 500)
                (Slack.to_js (Slack.perform slack c))).
Proof.
  unfold Rest.app, Auth.requireApiKey.
  destruct (Rest.under_api (Rest.route req));
    [destruct (Auth.strict_eq _ apiKey);
       [|left; split; [reflexivity|]; right; right; left; reflexivity]|];
    (destruct (handler_shape slack (Rest.route req))
       as [[Hc [Hr|[Hr|[Hr|Hr]]]]|[c Hc]];
     [left; split; [exact Hc|]; auto
     |left; split; [exact Hc|]; auto
     |left; split; [exact Hc|]; auto 6
     |left; split; [exact Hc|]; auto 6
     |right; exists c; rewrite Hc; split; reflexivity]).
Qed.



(** The health route is answered 200 with ok true and status "healthy"
    whatever the headers of the request, with or without a key, and without
    a call on the service. *)
Lemma health_needs_no_key `{Runtime}
    (slack : Slack.SlackService) (apiKey : string) (headers : Express.Headers) :
  Rest.app slack apiKey {| Rest.headers := headers; Rest.route := Rest.GET_health |}
  = ([], Express.Json 200 (JObj [("ok", JBool true); ("status", JStr "healthy")])).
Proof. reflexivity. Qed.

(** X8. An authenticated GET /api/search whose [query] parameter is absent
    or empty is answered 400 with detail "query parameter is required" and
    makes no call. Otherwise it calls [searchMessages] once with the query
    as given and, as count, 20 when [count] is absent or empty and
    [parseInt(count, 10)] when it is not. *)
Theorem search_validates_query_and_parses_count `{Runtime}
    (slack : Slack.SlackService) (apiKey : string) (session : option string)
    (q : Rest.SearchQuery) :
  let req :=
    {| Rest.headers :=
         {| Express.x_api_key := Some apiKey; Express.mcp_session_id := session |};
       Rest.route := Rest.GET_api_search q |} in
  ((Rest.query q = None \/ Rest.query q = Some "") ->
   Rest.app slack apiKey req
   = ([], Express.Json 400
            (JObj [("ok", JBool false); ("error", JStr "bad_request");
                   ("detail", JStr "query parameter is required")])))
  /\
  (forall query : string,
      Rest.query q = Some query -> query <> "" ->
      Slack.calls (Rest.app slack apiKey req)
      = [Slack.SearchMessages query
           (Some match Rest.count q with
                 | None => Int 20
                 | Some s => if String.eqb s "" then Int 20 else parseInt s
                 end)]).
Proof.
  intros req. unfold req. rewrite app_authenticated. cbn [Rest.handler].
  unfold Rest.search. split.
  - intros Hmissing. apply str_or_undefined_None in Hmissing.
    rewrite Hmissing. reflexivity.
  - intros query Hq Hne.
    assert (E : str_or_undefined (Rest.query q) = Some query)
      by (apply str_or_undefined_Some; auto).
    rewrite E. unfold str_or.
    destruct (Rest.count q) as [s|]; [|reflexivity].
    destruct (String.eqb s ""); reflexivity.
Qed.

Lemma search_validates_query_and_parses_count_witness :
  Rest.app (H := Sample.runtime) Sample.slack_up Sample.key
    {| Rest.headers := Sample.with_key;
       Rest.route := Rest.GET_api_search {| Rest.query := None; Rest.count := Some "5" |} |}
  = ([], Express.Json 400 (Rest.bad_request "query parameter is required"))
  /\ Slack.calls
       (Rest.app (H := Sample.runtime) Sample.slack_up Sample.key
          {| Rest.headers := Sample.with_key;
             Rest.route :=
               Rest.GET_api_search {| Rest.query := Some "poke"; Rest.count := Some "5" |} |})
     = [Slack.SearchMessages "poke" (Some (Int 5))].
Proof.
  split.
  - apply (search_validates_query_and_parses_count (H := Sample.runtime) Sample.slack_up Sample.key None
             {| Rest.query := None; Rest.count := Some "5" |}).
    left. reflexivity.
  - apply (search_validates_query_and_parses_count (H := Sample.runtime) Sample.slack_up Sample.key None
             {| Rest.query := Some "poke"; Rest.count := Some "5" |});
      [reflexivity | discriminate].
Defined.

(** X9. [createApp] throws exactly when SLACK_BOT_TOKEN or API_KEY is
    absent or empty. The application it returns otherwise is the routes over
    a service that holds the bot client of that token and no user client,
    guarded by that key; since the key is not empty, a request under [/api]
    whose [x-api-key] header is absent or empty is always answered 401. *)
Theorem createApp_requires_token_and_key `{Runtime}
    (new_WebClient : string -> Slack.WebClient) (env : Rest.Env) :
  (Rest.createApp new_WebClient env = None <->
   (Rest.SLACK_BOT_TOKEN env = None \/ Rest.SLACK_BOT_TOKEN env = Some "")
   \/ (Rest.API_KEY env = None \/ Rest.API_KEY env = Some ""))
  /\
  (forall app,
      Rest.createApp new_WebClient env = Some app ->
      exists token key,
        Rest.SLACK_BOT_TOKEN env = Some token /\ token <> ""
        /\ Rest.API_KEY env = Some key /\ key <> ""
        /\ app = Rest.app {| Slack.client := new_WebClient token;
                             Slack.userClient := None |} key
        /\ forall provided session route,
             provided = None \/ provided = Some "" ->
             Rest.under_api route = true ->
             app {| Rest.headers :=
                      {| Express.x_api_key := provided;
                         Express.mcp_session_id := session |};
                    Rest.route := route |}
             = ([], Express.Json 401
                      (JObj [("ok", JBool false); ("error", JStr "unauthorized");
                             ("detail", JStr "Missing or invalid API key")]))).
Proof.
  unfold Rest.createApp.
  destruct (str_or_undefined (Rest.SLACK_BOT_TOKEN env)) as [token|] eqn:Et;
    [destruct (str_or_undefined (Rest.API_KEY env)) as [key|] eqn:Ek|].
  - apply str_or_undefined_Some in Et, Ek.
    destruct Et as [Et Htoken], Ek as [Ek Hkey]. split.
    + split; [discriminate|]. intros [[E|E]|[E|E]]; congruence.
    + intros app [= <-]. exists token, key. repeat (split; [assumption|]).
      split; [reflexivity|].
      intros provided session route Hprovided Hapi.
      unfold Rest.app, Auth.requireApiKey.
      cbn [Rest.route Rest.headers Express.x_api_key]. rewrite Hapi.
      assert (Hno : Auth.strict_eq provided key = false).
      { apply strict_eq_false. destruct Hprovided as [->| ->]; congruence. }
      rewrite Hno. reflexivity.
  - apply str_or_undefined_None in Ek. split; [|discriminate].
    split; [intros _; right; exact Ek | reflexivity].
  - apply str_or_undefined_None in Et. split; [|discriminate].
    split; [intros _; left; exact Et | reflexivity].
Qed.

Lemma createApp_requires_token_and_key_witness :
  exists token key,
    Some "xoxb-test" = Some token /\ token <> ""
    /\ Some "test-key" = Some key /\ key <> ""
    /\ Rest.app (H := Sample.runtime) {| Slack.client := Sample.resolving; Slack.userClient := None |} "test-key"
       = Rest.app (H := Sample.runtime) {| Slack.client := Sample.resolving; Slack.userClient := None |} key
    /\ forall provided session route,
         provided = None \/ provided = Some "" ->
         Rest.under_api route = true ->
         Rest.app (H := Sample.runtime) {| Slack.client := Sample.resolving; Slack.userClient := None |} "test-key"
           {| Rest.headers :=
                {| Express.x_api_key := provided; Express.mcp_session_id := session |};
              Rest.route := route |}
         = ([], Express.Json 401 Auth.unauthorized_body).
Proof.
  exact (proj2 (createApp_requires_token_and_key (H := Sample.runtime)
                  (fun _ => Sample.resolving)
                  {| Rest.SLACK_BOT_TOKEN := Some "xoxb-test";
                     Rest.API_KEY := Some "test-key" |})
           _ eq_refl).
Defined.

(** ** The tools *)

Lemma find_tool_registered `{Runtime} (slack : Slack.SlackService) (name : string) :
  match Mcp.find_tool (Mcp.createMcpServer slack) name with
  | Some tool =>
      In name ["send_message"; "read_dm_history"; "search_messages"; "find_user"; "open_dm"]
  | None =>
      ~ In name ["send_message"; "read_dm_history"; "search_messages"; "find_user"; "open_dm"]
  end.
Proof.
  unfold Mcp.createMcpServer. cbn [Mcp.find_tool].
  destruct (String.eqb_spec "send_message" name) as [<-|H1]; [cbn; auto|].
  destruct (String.eqb_spec "read_dm_history" name) as [<-|H2]; [cbn; auto|].
  destruct (String.eqb_spec "search_messages" name) as [<-|H3]; [cbn; auto|].
  destruct (String.eqb_spec "find_user" name) as [<-|H4]; [cbn; auto 6|].
  destruct (String.eqb_spec "open_dm" name) as [<-|H5]; [cbn; auto 7|].
  cbn. intros [E|[E|[E|[E|[E|[]]]]]]; congruence.
Qed.

(** The call a tool makes belongs to that tool. *)
Lemma tool_makes_its_own_call `{Runtime} (slack : Slack.SlackService)
    (name : string) (tool : JsValue -> option (Slack.Logged Mcp.CallToolResult))
    (args : JsValue) (run : Slack.Logged Mcp.CallToolResult) :
  Mcp.find_tool (Mcp.createMcpServer slack) name = Some tool ->
  tool args = Some run ->
  exists c, run = ([c], Mcp.reply (Slack.perform slack c))
            /\ Spec.tool_of c = name
            /\ match c with
               | Slack.GetChannelHistory _ limit cursor =>
                   (exists z, limit = Some (Int z)) /\ cursor = None
               | Slack.SearchMessages _ count => exists z, count = Some (Int z)
               | _ => True
               end.
Proof.
  assert (Hnum : forall d v n,
             Mcp.z_number_optional_default d v = Some n -> exists z, n = Int z).
  { intros d v n. unfold Mcp.z_number_optional_default.
    destruct v as [[| | |[|z]| | |]|]; intros [= <-]; eauto. }
  unfold Mcp.createMcpServer. cbn [Mcp.find_tool].
  destruct (String.eqb_spec "send_message" name) as [<-|H1].
  { intros [= <-]. unfold Mcp.tool_send_message.
    destruct (Mcp.z_string (Mcp.field "channel" args)) as [channel|];
      destruct (Mcp.z_string (Mcp.field "text" args)) as [text|]; try discriminate.
    intros [= <-]. exists (Slack.SendMessage channel text). auto. }
  destruct (String.eqb_spec "read_dm_history" name) as [<-|H2].
  { intros [= <-]. unfold Mcp.tool_read_dm_history.
    destruct (Mcp.z_string (Mcp.field "channel_id" args)) as [channel_id|];
      destruct (Mcp.z_number_optional_default 20 (Mcp.field "limit" args))
        as [limit|] eqn:El; try discriminate.
    intros [= <-]. exists (Slack.GetChannelHistory channel_id (Some limit) None).
    destruct (Hnum _ _ _ El) as [z ->]. repeat split; eauto. }
  destruct (String.eqb_spec "search_messages" name) as [<-|H3].
  { intros [= <-]. unfold Mcp.tool_search_messages.
    destruct (Mcp.z_string (Mcp.field "query" args)) as [query|];
      destruct (Mcp.z_number_optional_default 20 (Mcp.field "count" args))
        as [count|] eqn:Ec; try discriminate.
    intros [= <-]. exists (Slack.SearchMessages query (Some count)).
    destruct (Hnum _ _ _ Ec) as [z ->]. repeat split; eauto. }
  destruct (String.eqb_spec "find_user" name) as [<-|H4].
  { intros [= <-]. unfold Mcp.tool_find_user.
    destruct (Mcp.z_string (Mcp.field "query" args)) as [query|]; try discriminate.
    intros [= <-]. exists (Slack.SearchUsers query). auto. }
  destruct (String.eqb_spec "open_dm" name) as [<-|H5].
  { intros [= <-]. unfold Mcp.tool_open_dm.
    destruct (Mcp.z_string (Mcp.field "user_id" args)) as [user_id|]; try discriminate.
    intros [= <-]. exists (Slack.OpenDm user_id). auto. }
  discriminate.
Qed.

(** X10. A tool call ends in one of three ways. The name is none of the
    five registered names: unknown tool, no call on the service. The name is
    registered and the arguments do not fit the tool's shape: invalid
    parameters, no call on the service. Otherwise the tool makes exactly one
    call, the operation that belongs to the tool of that name, and replies
    with the serialization of its result. *)
Theorem tool_call_validates_before_it_calls `{Runtime}
    (slack : Slack.SlackService) (name : string) (args : JsValue) :
  let registered :=
    ["send_message"; "read_dm_history"; "search_messages"; "find_user"; "open_dm"] in
  let run := Mcp.call_tool (Mcp.createMcpServer slack) name args in
  (~ In name registered /\ run = ([], Mcp.UnknownTool))
  \/ (In name registered /\ run = ([], Mcp.InvalidParams))
  \/ (In name registered
      /\ exists c,
           Spec.tool_of c = name
           /\ run = ([c],
                     Mcp.ToolReply
                       {| Mcp.content :=
                            [Mcp.TextContent
                               (JSON_stringify (Slack.to_js (Slack.perform slack c)))];
                          Mcp.isError := false |})).
Proof.
  intros registered run. unfold run, Mcp.call_tool.
  pose proof (find_tool_registered slack name) as Hreg.
  destruct (Mcp.find_tool (Mcp.createMcpServer slack) name) as [tool|] eqn:Etool.
  - right. destruct (tool args) as [r|] eqn:Er.
    + right. split; [exact Hreg|].
      destruct (tool_makes_its_own_call slack name tool args r Etool Er)
        as (c & -> & Hc & _).
      exists c. split; [exact Hc | reflexivity].
    + left. split; [exact Hreg | reflexivity].
  - left. split; [exact Hreg | reflexivity].
Qed.

(** X11. The tools hand on only what their shapes let through: the limit of
    a history call and the count of a search call made by a tool are always
    numbers, never NaN and never left out, and a history call made by a
    tool never carries a cursor. *)
Theorem tools_forward_numbers_and_no_cursor `{Runtime}
    (slack : Slack.SlackService) (name : string) (args : JsValue)
    (c : Slack.SlackCall) :
  In c (Slack.calls (Mcp.call_tool (Mcp.createMcpServer slack) name args)) ->
  match c with
  | Slack.GetChannelHistory _ limit cursor =>
      (exists z, limit = Some (Int z)) /\ cursor = None
  | Slack.SearchMessages _ count => exists z, count = Some (Int z)
  | _ => True
  end.
Proof.
  unfold Mcp.call_tool.
  destruct (Mcp.find_tool (Mcp.createMcpServer slack) name) as [tool|] eqn:Etool;
    [|intros []].
  destruct (tool args) as [r|] eqn:Er; [|intros []].
  destruct (tool_makes_its_own_call slack name tool args r Etool Er)
    as (c' & -> & _ & Hc).
  cbn. intros [<-|[]]. exact Hc.
Qed.

Lemma tools_forward_numbers_and_no_cursor_witness :
  (exists z, Some (Int 5) = Some (Int z)) /\ @None string = None.
Proof.
  exact (tools_forward_numbers_and_no_cursor (H := Sample.runtime) Sample.slack_up
           "read_dm_history"
           (JObj [("channel_id", JStr "D1"); ("limit", JNum (Int 5));
                  ("cursor", JStr "abc")])
           (Slack.GetChannelHistory "D1" (Some (Int 5)) None)
           (or_introl eq_refl)).
Defined.

(** X12. The tool [send_message] forwards any two strings, the empty string
    included, to [sendMessage]; the REST route, given the same empty channel
    with a valid key, answers 400 and makes no call. *)
Theorem send_message_tool_accepts_what_rest_rejects `{Runtime}
    (slack : Slack.SlackService) (apiKey : string) :
  (forall (args : JsValue) (channel text : string),
      Mcp.field "channel" args = Some (JStr channel) ->
      Mcp.field "text" args = Some (JStr text) ->
      Slack.calls (Mcp.call_tool (Mcp.createMcpServer slack) "send_message" args)
      = [Slack.SendMessage channel text])
  /\
  (forall text : string,
      Slack.calls
        (Mcp.call_tool (Mcp.createMcpServer slack) "send_message"
           (JObj [("channel", JStr ""); ("text", JStr text)]))
      = [Slack.SendMessage "" text]
      /\ Slack.calls
           (Rest.app slack apiKey
              {| Rest.headers :=
                   {| Express.x_api_key := Some apiKey;
                      Express.mcp_session_id := None |};
                 Rest.route :=
                   Rest.POST_api_messages_send
                     {| Rest.channel := Some ""; Rest.text := Some text |} |})
         = []).
Proof.
  split.
  - intros args channel text Hc Ht. unfold Mcp.call_tool.
    cbn [Mcp.createMcpServer Mcp.find_tool String.eqb Ascii.eqb Bool.eqb].
    unfold Mcp.tool_send_message. rewrite Hc, Ht. reflexivity.
  - intros text. split; [reflexivity|].
    rewrite app_authenticated. reflexivity.
Qed.

Lemma send_message_tool_accepts_what_rest_rejects_witness :
  Slack.calls
    (Mcp.call_tool (Mcp.createMcpServer (H := Sample.runtime) Sample.slack_up)
       "send_message"
       (JObj [("text", JStr ""); ("channel", JStr "C01"); ("thread", JNull)]))
  = [Slack.SendMessage "C01" ""].
Proof.
  apply (proj1 (send_message_tool_accepts_what_rest_rejects (H := Sample.runtime)
                  Sample.slack_up Sample.key));
    reflexivity.
Defined.

(** ** The mount *)

Lemma falsy_header (header : option string) :
  negb (truthy_str header) = true <-> header = None \/ header = Some "".
Proof.
  rewrite truthy_str_undefined, <- str_or_undefined_None.
  destruct (str_or_undefined header); cbn [negb]; split; congruence.
Qed.

Lemma known_falsy (st : Mcp.Store) (header : option string) :
  header = None \/ header = Some "" -> Mcp.known st header = None.
Proof. intros [->| ->]; reflexivity. Qed.

(** What a request comes to, branch by branch: the handler answers by
    itself; or the request is forwarded to the transport that the registry
    holds under the id it carries; or, a POST, it opens a session and is
    forwarded to the transport just constructed. *)
Lemma mount_cases `{Runtime} (slack : Slack.SlackService) (apiKey : string)
    (v : Mcp.Verb) (st : Mcp.Store) (req : Mcp.Request) (sdk : Mcp.Sdk) :
  (exists r,
      Mcp.mountMcp slack apiKey v st req sdk = (st, Mcp.direct r)
      /\ (r = Mcp.unauthorized \/ r = Mcp.bad_request \/ r = Mcp.invalid_session))
  \/ (exists id t,
         Express.mcp_session_id (Mcp.headers req) = Some id
         /\ Mcp.transports st !! id = Some t
         /\ snd (Mcp.mountMcp slack apiKey v st req sdk)
            = match v with
              | Mcp.POST => Mcp.forward_caught slack sdk t
              | _ => Mcp.forward_bare slack sdk t
              end)
  \/ (v = Mcp.POST
      /\ Mcp.mountMcp slack apiKey v st req sdk
         = ({| Mcp.transports :=
                 <[Mcp.randomUUID sdk :=
                     {| Mcp.instance := Mcp.constructed st;
                        Mcp.sessionId := Mcp.randomUUID sdk |}]> (Mcp.transports st);
               Mcp.constructed := S (Mcp.constructed st) |},
            Mcp.forward_caught slack sdk
              {| Mcp.instance := Mcp.constructed st;
                 Mcp.sessionId := Mcp.randomUUID sdk |})).
Proof.
  by_verb v;
    (destruct (negb (Mcp.checkAuth apiKey req)); [left; eauto|]);
    destruct (Mcp.known st _) as [t|] eqn:Hk;
    try (right; left; apply known_Some in Hk; destruct Hk as (id & Hh & _ & Ht);
         exists id, t; auto);
    try (left; eauto 6; fail).
  destruct (negb _ && _); [|left; eauto 6].
  right. right. split; reflexivity.
Qed.

(** X13. A request changes the registry in two cases only. A POST that
    passes the auth gate, has no session-id header or an empty one, and
    whose body satisfies the initialize predicate adds the entry of the
    generated id and counts one more transport. A DELETE that passes the
    auth gate and carries the id of a live session, forwarded to a transport
    that closes while it handles the request, leaves the registry as that
    transport's [onclose] leaves it: the handler itself removes nothing.
    Every other request, and every GET in particular, leaves the registry
    exactly as it was. *)
Theorem registry_changes_when_a_session_opens_or_closes `{Runtime}
    (slack : Slack.SlackService) (apiKey : string) (v : Mcp.Verb)
    (st : Mcp.Store) (req : Mcp.Request) (sdk : Mcp.Sdk) :
  let header := Express.mcp_session_id (Mcp.headers req) in
  let opening :=
    v = Mcp.POST /\ Mcp.checkAuth apiKey req = true
    /\ (header = None \/ header = Some "")
    /\ isInitializeRequest (Mcp.body req) = true in
  let closing (t : Mcp.Transport) :=
    v = Mcp.DELETE /\ Mcp.checkAuth apiKey req = true
    /\ (exists id, header = Some id /\ id <> "" /\ Mcp.transports st !! id = Some t)
    /\ Mcp.closes_on_delete sdk t = true in
  let after := fst (Mcp.mountMcp slack apiKey v st req sdk) in
  (opening ->
   after
   = {| Mcp.transports :=
          <[Mcp.randomUUID sdk :=
              {| Mcp.instance := Mcp.constructed st;
                 Mcp.sessionId := Mcp.randomUUID sdk |}]> (Mcp.transports st);
        Mcp.constructed := S (Mcp.constructed st) |})
  /\ (forall t, closing t -> after = Mcp.onclose t st)
  /\ (~ opening -> (forall t, ~ closing t) -> after = st)
  /\ (v = Mcp.GET -> after = st).
Proof.
  intros header opening closing after.
  assert (Hget : v = Mcp.GET -> after = st).
  { intros ->. unfold after. cbn [Mcp.mountMcp]. unfold Mcp.get.
    destruct (negb (Mcp.checkAuth apiKey req)); [reflexivity|].
    destruct (Mcp.known st _); reflexivity. }
  split; [|split; [|split]].
  - intros (-> & Hauth & Hh & Hinit). unfold after. cbn [Mcp.mountMcp].
    unfold Mcp.post. rewrite Hauth. cbn [negb]. fold header.
    rewrite (known_falsy st header Hh), (proj2 (falsy_header header) Hh), Hinit.
    reflexivity.
  - intros t (-> & Hauth & Hlive & Hcloses). unfold after. cbn [Mcp.mountMcp].
    unfold Mcp.delete_. rewrite Hauth. cbn [negb]. fold header.
    rewrite (proj2 (known_Some st header t) Hlive), Hcloses. reflexivity.
  - intros Hno Hstays. destruct v; [| exact (Hget eq_refl) |];
      unfold after; cbn [Mcp.mountMcp].
    + unfold Mcp.post.
      destruct (Mcp.checkAuth apiKey req) eqn:Hauth; [|reflexivity]. cbn [negb].
      destruct (Mcp.known st _) as [t|]; [reflexivity|]. fold header.
      destruct (negb (truthy_str header)) eqn:Hh; [|reflexivity].
      destruct (isInitializeRequest (Mcp.body req)) eqn:Hinit; [|reflexivity].
      exfalso. apply Hno. apply falsy_header in Hh. repeat split; assumption.
    + unfold Mcp.delete_.
      destruct (Mcp.checkAuth apiKey req) eqn:Hauth; [|reflexivity]. cbn [negb].
      fold header. destruct (Mcp.known st header) as [t|] eqn:Hk; [|reflexivity].
      destruct (Mcp.closes_on_delete sdk t) eqn:Hcloses; [|reflexivity].
      exfalso. apply (Hstays t). apply known_Some in Hk.
      repeat split; assumption.
  - exact Hget.
Qed.

Lemma registry_changes_when_a_session_opens_or_closes_witness :
  fst (Mcp.mountMcp (H := Sample.runtime) Sample.slack_up Sample.key Mcp.DELETE
         Sample.one_session (Sample.rpc (Some Sample.uuid1) Sample.tools_list)
         (Sample.sdk_ok Sample.uuid2))
  = Mcp.onclose {| Mcp.instance := 0; Mcp.sessionId := Sample.uuid1 |}
      Sample.one_session.
Proof.
  apply (registry_changes_when_a_session_opens_or_closes (H := Sample.runtime)
           Sample.slack_up Sample.key Mcp.DELETE Sample.one_session
           (Sample.rpc (Some Sample.uuid1) Sample.tools_list)
           (Sample.sdk_ok Sample.uuid2)).
  split; [reflexivity|]. split; [reflexivity|]. split; [|reflexivity].
  exists Sample.uuid1.
  split; [reflexivity|]. split; [exact uuid1_not_empty | exact one_session_lookup].
Defined.

(** X14. Every request to the RPC endpoint either is answered by the handler
    itself, with status 400 or 401, the registry unchanged, nothing
    forwarded and no call on the service; or is forwarded to the transport
    that the registry held, before the handler ran, under the id the
    request carries; or, a POST that opens a session, is forwarded to the
    transport just constructed, which the registry then holds under the
    generated id. The service is never called for a request that was not
    forwarded. *)
Theorem mount_answers_itself_or_forwards `{Runtime}
    (slack : Slack.SlackService) (apiKey : string) (v : Mcp.Verb)
    (st : Mcp.Store) (req : Mcp.Request) (sdk : Mcp.Sdk) :
  let after := Mcp.mountMcp slack apiKey v st req sdk in
  let opened :=
    {| Mcp.instance := Mcp.constructed st; Mcp.sessionId := Mcp.randomUUID sdk |} in
  ((exists r,
       after
       = (st, {| Mcp.answer := Mcp.Answered r; Mcp.forwarded := None;
                 Mcp.slack_calls := [] |})
       /\ (Express.status_of r = 400 \/ Express.status_of r = 401))
   \/ (exists id t,
          Express.mcp_session_id (Mcp.headers req) = Some id
          /\ Mcp.transports st !! id = Some t
          /\ Mcp.forwarded (snd after) = Some t)
   \/ (v = Mcp.POST
       /\ Mcp.forwarded (snd after) = Some opened
       /\ Mcp.transports (fst after) !! Mcp.randomUUID sdk = Some opened))
  /\ (Mcp.forwarded (snd after) = None -> Mcp.slack_calls (snd after) = []).
Proof.
  intros after opened. unfold after.
  destruct (mount_cases slack apiKey v st req sdk)
    as [(r & E & Hr)|[(id & t & Hh & Ht & E)|(-> & E)]].
  - rewrite E. split; [|reflexivity]. left. exists r. split; [reflexivity|].
    destruct Hr as [->|[->| ->]]; cbn; auto.
  - split.
    + right. left. exists id, t. split; [exact Hh|]. split; [exact Ht|].
      rewrite E. destruct v; reflexivity.
    + rewrite E. destruct v; discriminate.
  - rewrite E. split; [|discriminate].
    right. right. split; [reflexivity|]. split; [reflexivity|].
    apply lookup_insert_eq.
Qed.

Lemma mount_answers_itself_or_forwards_witness :
  Mcp.slack_calls
    (snd (Mcp.mountMcp (H := Sample.runtime) Sample.slack_up Sample.key Mcp.GET
            Mcp.initial (Sample.rpc (Some Sample.uuid1) Sample.tools_list)
            (Sample.sdk_ok Sample.uuid2)))
  = [].
Proof.
  apply (proj2 (mount_answers_itself_or_forwards (H := Sample.runtime)
                  Sample.slack_up Sample.key Mcp.GET Mcp.initial
                  (Sample.rpc (Some Sample.uuid1) Sample.tools_list)
                  (Sample.sdk_ok Sample.uuid2))).
  vm_compute. reflexivity.
Defined.

(** X15. The internal-error envelope (500, code -32603) is the answer in
    one case only: the verb is POST, the request was forwarded to a
    transport, and that transport's [handleRequest] threw before any header
    was sent. After headers were sent the handler writes nothing more, and
    GET and DELETE never answer with the envelope. *)
Theorem internal_error_means_uncaught_post_fault `{Runtime}
    (slack : Slack.SlackService) (apiKey : string) (v : Mcp.Verb)
    (st : Mcp.Store) (req : Mcp.Request) (sdk : Mcp.Sdk) :
  let after := snd (Mcp.mountMcp slack apiKey v st req sdk) in
  Mcp.answer after
  = Mcp.Answered
      (Express.Json 500
         (JObj [("jsonrpc", JStr "2.0");
                ("error",
                 JObj [("code", JNum (Int (-32603)));
                       ("message", JStr "Internal server error")]);
                ("id", JNull)]))
  <-> v = Mcp.POST
      /\ exists t, Mcp.forwarded after = Some t
                   /\ Mcp.completion (Mcp.handleRequest sdk t) = Mcp.Throws false.
Proof.
  intros after. unfold after.
  assert (Hcases :
    (exists r, snd (Mcp.mountMcp slack apiKey v st req sdk) = Mcp.direct r
               /\ (r = Mcp.unauthorized \/ r = Mcp.bad_request
                   \/ r = Mcp.invalid_session))
    \/ (exists t, snd (Mcp.mountMcp slack apiKey v st req sdk)
                  = match v with
                    | Mcp.POST => Mcp.forward_caught slack sdk t
                    | _ => Mcp.forward_bare slack sdk t
                    end)).
  { destruct (mount_cases slack apiKey v st req sdk)
      as [(r & E & Hr)|[(id & t & _ & _ & E)|(-> & E)]].
    - left. exists r. rewrite E. auto.
    - right. exists t. exact E.
    - right. eexists. rewrite E. reflexivity. }
  destruct Hcases as [(r & E & Hr)|(t & E)]; rewrite E.
  - split.
    + destruct Hr as [->|[->| ->]]; discriminate.
    + intros (_ & t & Ht & _). discriminate Ht.
  - destruct v; cbn [Mcp.forward_caught Mcp.forward_bare Mcp.answer Mcp.forwarded].
    + destruct (Mcp.completion (Mcp.handleRequest sdk t)) as [|[|]] eqn:Ec; cbn [negb].
      * split; [discriminate|]. intros (_ & t' & [= <-] & Ht). congruence.
      * split; [discriminate|]. intros (_ & t' & [= <-] & Ht). congruence.
      * split; [|reflexivity]. intros _. split; [reflexivity|]. eauto.
    + split; [|intros [Hv _]; discriminate Hv].
      destruct (Mcp.completion (Mcp.handleRequest sdk t)); discriminate.
    + split; [|intros [Hv _]; discriminate Hv].
      destruct (Mcp.completion (Mcp.handleRequest sdk t)); discriminate.
Qed.

Lemma internal_error_means_uncaught_post_fault_witness :
  Mcp.answer
    (snd (Mcp.mountMcp (H := Sample.runtime) Sample.slack_up Sample.key Mcp.POST
            Sample.one_session (Sample.rpc (Some Sample.uuid1) Sample.tools_list)
            (Sample.sdk_throwing Sample.uuid2)))
  = Mcp.Answered Mcp.internal_error.
Proof.
  apply (proj2 (internal_error_means_uncaught_post_fault (H := Sample.runtime)
                  Sample.slack_up Sample.key Mcp.POST Sample.one_session
                  (Sample.rpc (Some Sample.uuid1) Sample.tools_list)
                  (Sample.sdk_throwing Sample.uuid2))).
  split; [reflexivity|].
  exists {| Mcp.instance := 0; Mcp.sessionId := Sample.uuid1 |}.
  split; [vm_compute; reflexivity | reflexivity].
Defined.

(** X16. An initialize call whose transport throws before anything was sent
    is answered with the internal-error envelope, but the session it opened
    stays in the registry: the entry is there after the handler has run, and
    a later request that passes the auth gate and carries the generated id
    is forwarded to that transport. *)
Theorem failed_initialize_keeps_the_session `{Runtime}
    (slack : Slack.SlackService) (apiKey : string)
    (st : Mcp.Store) (req : Mcp.Request) (sdk : Mcp.Sdk) :
  let sid := Mcp.randomUUID sdk in
  let t := {| Mcp.instance := Mcp.constructed st; Mcp.sessionId := sid |} in
  let after := Mcp.post slack apiKey st req sdk in
  Mcp.checkAuth apiKey req = true ->
  Express.mcp_session_id (Mcp.headers req) = None ->
  isInitializeRequest (Mcp.body req) = true ->
  Mcp.completion (Mcp.handleRequest sdk t) = Mcp.Throws false ->
  sid <> "" ->
  Mcp.answer (snd after) = Mcp.Answered Mcp.internal_error
  /\ Mcp.transports (fst after) !! sid = Some t
  /\ forall v req' sdk',
       Mcp.checkAuth apiKey req' = true ->
       Express.mcp_session_id (Mcp.headers req') = Some sid ->
       Mcp.forwarded (snd (Mcp.mountMcp slack apiKey v (fst after) req' sdk')) = Some t.
Proof.
  intros sid t after Hauth Hh Hinit Hthrow Hsid.
  assert (Hpost : after
                  = ({| Mcp.transports := <[sid := t]> (Mcp.transports st);
                        Mcp.constructed := S (Mcp.constructed st) |},
                     Mcp.forward_caught slack sdk t)).
  { unfold after, Mcp.post. rewrite Hauth, Hh, Hinit. reflexivity. }
  assert (Hstored : Mcp.transports (fst after) !! sid = Some t).
  { rewrite Hpost. apply lookup_insert_eq. }
  split; [|split].
  - rewrite Hpost. cbn [snd Mcp.forward_caught Mcp.answer]. rewrite Hthrow. reflexivity.
  - exact Hstored.
  - intros v req' sdk' Hauth' Hh'.
    apply (live_session_is_reached slack apiKey v (fst after) req' sdk' sid t);
      assumption.
Qed.

Lemma failed_initialize_keeps_the_session_witness :
  Mcp.answer
    (snd (Mcp.post (H := Sample.runtime) Sample.slack_up Sample.key Mcp.initial
            (Sample.rpc None Sample.initialize) (Sample.sdk_throwing Sample.uuid1)))
  = Mcp.Answered Mcp.internal_error
  /\ Mcp.transports
       (fst (Mcp.post (H := Sample.runtime) Sample.slack_up Sample.key Mcp.initial
               (Sample.rpc None Sample.initialize) (Sample.sdk_throwing Sample.uuid1)))
     !! Sample.uuid1
     = Some {| Mcp.instance := 0; Mcp.sessionId := Sample.uuid1 |}.
Proof.
  destruct (failed_initialize_keeps_the_session (H := Sample.runtime)
              Sample.slack_up Sample.key Mcp.initial
              (Sample.rpc None Sample.initialize) (Sample.sdk_throwing Sample.uuid1)
              eq_refl eq_refl eq_refl eq_refl uuid1_not_empty)
    as (Hanswer & Hstored & _).
  split; [exact Hanswer | exact Hstored].
Defined.

Lemma initial_in_order : Spec.in_order Mcp.initial.
Proof.
  split; [|split]; cbn [Mcp.initial Mcp.transports Mcp.constructed].
  - intros id t Ht. rewrite lookup_empty in Ht. discriminate.
  - intros id1 id2 t1 t2 H1. rewrite lookup_empty in H1. discriminate.
  - rewrite map_size_empty. lia.
Qed.

Lemma onclose_in_order (st : Mcp.Store) (t : Mcp.Transport) :
  Spec.in_order st -> Spec.in_order (Mcp.onclose t st).
Proof.
  intros (Hwf & Hdistinct & Hsize).
  split; [|split]; cbn [Mcp.onclose Mcp.transports Mcp.constructed].
  - intros id t0. rewrite lookup_delete_Some. intros [_ Ht]. exact (Hwf id t0 Ht).
  - intros id1 id2 t1 t2. rewrite !lookup_delete_Some.
    intros [_ H1] [_ H2]. exact (Hdistinct id1 id2 t1 t2 H1 H2).
  - rewrite map_size_delete. destruct (Mcp.transports st !! Mcp.sessionId t);
      cbn; lia.
Qed.

Lemma step_in_order `{Runtime} (slack : Slack.SlackService) (apiKey : string)
    (st : Mcp.Store) (e : Mcp.Event) :
  Spec.in_order st -> Spec.in_order (fst (Mcp.step slack apiKey st e)).
Proof.
  intros Horder. destruct e as [v req sdk|t]; cbn [Mcp.step];
    [|apply onclose_in_order, Horder].
  destruct (Mcp.mountMcp slack apiKey v st req sdk) as [st' o] eqn:E. cbn [fst].
  destruct (mount_registry slack apiKey v st req sdk)
    as [R|[R|(_ & id & t & _ & _ & R)]];
    rewrite E in R; cbn [fst] in R; subst st';
    [exact Horder | | apply onclose_in_order, Horder].
  destruct Horder as (Hwf & Hdistinct & Hsize).
  - split; [|split]; cbn [Mcp.transports Mcp.constructed].
    + intros id t. rewrite lookup_insert_Some. intros [[<- <-]|[_ Ht]].
      * cbn. split; [reflexivity | lia].
      * destruct (Hwf id t Ht) as [Hid Hlt]. split; [exact Hid | lia].
    + intros id1 id2 t1 t2. rewrite !lookup_insert_Some.
      intros [[<- <-]|[_ H1]] [[<- <-]|[_ H2]] Hne.
      * contradiction.
      * destruct (Hwf id2 t2 H2) as [_ Hlt]. cbn. lia.
      * destruct (Hwf id1 t1 H1) as [_ Hlt]. cbn. lia.
      * exact (Hdistinct id1 id2 t1 t2 H1 H2 Hne).
    + rewrite map_size_insert. destruct (Mcp.transports st !! Mcp.randomUUID sdk);
        cbn; lia.
Qed.

(** X17. Whatever requests arrive and whatever transports close, the
    registry of a run that started empty stays in good order: every entry
    sits under the id that its transport generates and that its [onclose]
    removes, two different ids never lead to the same transport object, and
    the registry never holds more entries than transports were
    constructed. *)
Theorem registry_stays_in_order `{Runtime}
    (slack : Slack.SlackService) (apiKey : string) (es : list Mcp.Event) :
  let st := Mcp.run slack apiKey Mcp.initial es in
  (forall id t, Mcp.transports st !! id = Some t ->
                Mcp.sessionId t = id /\ (Mcp.instance t < Mcp.constructed st)%nat)
  /\ (forall id1 id2 t1 t2,
         Mcp.transports st !! id1 = Some t1 ->
         Mcp.transports st !! id2 = Some t2 ->
         id1 <> id2 -> Mcp.instance t1 <> Mcp.instance t2)
  /\ (size (Mcp.transports st) <= Mcp.constructed st)%nat.
Proof.
  intros st. unfold st. change (Spec.in_order (Mcp.run slack apiKey Mcp.initial es)).
  generalize initial_in_order. generalize Mcp.initial as s.
  induction es as [|e es IH]; intros s Hs; cbn [Mcp.run].
  - exact Hs.
  - apply IH, step_in_order, Hs.
Qed.

Lemma registry_stays_in_order_witness :
  Mcp.sessionId {| Mcp.instance := 0; Mcp.sessionId := Sample.uuid1 |} = Sample.uuid1
  /\ (0 < 2)%nat.
Proof.
  exact (proj1 (registry_stays_in_order (H := Sample.runtime) Sample.slack_up Sample.key
                  [Mcp.Incoming Mcp.POST (Sample.rpc None Sample.initialize)
                     (Sample.sdk_ok Sample.uuid1);
                   Mcp.Incoming Mcp.POST (Sample.rpc None Sample.initialize)
                     (Sample.sdk_ok Sample.uuid2);
                   Mcp.Closes {| Mcp.instance := 1; Mcp.sessionId := Sample.uuid2 |}])
           Sample.uuid1 {| Mcp.instance := 0; Mcp.sessionId := Sample.uuid1 |}
           ltac:(vm_compute; reflexivity)).
Defined.
